(** * function_app.py: module bootstrap and health endpoints

    A shallow embedding of [src/function_app.py]: the guarded import of
    [data.cosmos_ops], the five guarded blueprint registrations, the shallow
    [/health] handler and the extended [/health_extended] handler with its
    storage and Cosmos DB probes.

    Python code runs in a state-and-exception monad over a [World] that holds
    what the file reads and writes: [os.environ], the import system, the
    module globals ([app], [cosmos_ops]), the log, the two backends and the
    trace of network operations issued. *)

From Stdlib Require Import Ascii.
From stdpp Require Import base option list strings gmap.

(** ** Python exceptions *)

Module Py.

(** The part of the built-in exception hierarchy the file can meet, plus
    classes defined by libraries ([Derived name base]). *)
Inductive exc_class : Type :=
  | BaseException
  | Exception
  | ImportError
  | ModuleNotFoundError
  | ValueError
  | NameError
  | AttributeError
  | TypeError
  | OSError
  | KeyboardInterrupt
  | SystemExit
  | GeneratorExit
  | CancelledError
  | Derived (name : string) (base : exc_class).

#[global] Instance exc_class_eq_dec : EqDecision exc_class.
Proof. solve_decision. Defined.

(** The method resolution order of a class: the class, then its bases up
    to [BaseException]. *)
Fixpoint mro (c : exc_class) : list exc_class :=
  c ::
  match c with
  | BaseException => []
  | Exception => [BaseException]
  | ModuleNotFoundError => [ImportError; Exception; BaseException]
  | ImportError | ValueError | NameError | AttributeError | TypeError | OSError =>
      [Exception; BaseException]
  | KeyboardInterrupt | SystemExit | GeneratorExit | CancelledError =>
      [BaseException]
  | Derived _ b => mro b
  end.

Definition issubclass (c target : exc_class) : bool :=
  bool_decide (target ∈ mro c).

(** A raised exception: its class and [str(e)]. *)
Record exc : Type := mkExc { exc_cls : exc_class; exc_str : string }.

#[global] Instance exc_eq_dec : EqDecision exc.
Proof. solve_decision. Defined.

(** [isinstance(e, cls)], the test an [except cls] clause performs. *)
Definition isinstance (e : exc) (cls : exc_class) : bool :=
  issubclass (exc_cls e) cls.

(** The result of running a piece of code: a value or a raised exception. *)
Inductive result (A : Type) : Type :=
  | Ok (a : A)
  | Raise (e : exc).
Arguments Ok {A} a.
Arguments Raise {A} e.

End Py.
Export Py.


(** ** Python values, dicts and [json.dumps] *)

(** The values the handlers put in their result dicts. A dict is an
    association list in insertion order with distinct keys, as [json.dumps]
    prints the entries in that order. *)
#[local] Set Warnings "-register-all".
Inductive pyval : Type :=
  | VNone
  | VBool (b : bool)
  | VStr (s : string)
  | VDict (d : list (string * pyval)).

Abbreviation dict := (list (string * pyval)).

(** Truth value testing. *)
Definition truthy (v : pyval) : bool :=
  match v with
  | VNone => false
  | VBool b => b
  | VStr s => negb (bool_decide (s = EmptyString))
  | VDict d => negb (bool_decide (length d = 0))
  end.

(** [a and b], [a or b]: the operand that decides the result. *)
Definition py_and (a b : pyval) : pyval := if truthy a then b else a.
Definition py_or (a b : pyval) : pyval := if truthy a then a else b.

Fixpoint dict_lookup (k : string) (d : dict) : option pyval :=
  match d with
  | [] => None
  | (k', v) :: d' => if bool_decide (k' = k) then Some v else dict_lookup k d'
  end.

(** [d.get(k)]: [None] when the key is absent. *)
Definition dict_get (d : dict) (k : string) : pyval :=
  default VNone (dict_lookup k d).

(** [d[k] = v]: an existing key keeps its position, a new one goes last. *)
Fixpoint dict_set (k : string) (v : pyval) (d : dict) : dict :=
  match d with
  | [] => [(k, v)]
  | (k', v') :: d' =>
      if bool_decide (k' = k) then (k, v) :: d' else (k', v') :: dict_set k v d'
  end.

(** [d.update(other)]. *)
Definition dict_update (d other : dict) : dict :=
  fold_left (λ acc kv, dict_set kv.1 kv.2 acc) other d.

Definition dict_keys (d : dict) : list string := d.*1.

(** The value of [os.environ.get(k)] as a Python value. *)
Definition str_or_none (o : option string) : pyval :=
  match o with Some s => VStr s | None => VNone end.

Module Json.

Definition dquote : string := String "034"%char EmptyString.
Definition backslash : string := String "092"%char EmptyString.

Definition hex_digit (n : nat) : ascii :=
  match n with
  | 0 => "0" | 1 => "1" | 2 => "2" | 3 => "3" | 4 => "4" | 5 => "5" | 6 => "6"
  | 7 => "7" | 8 => "8" | 9 => "9" | 10 => "a" | 11 => "b" | 12 => "c"
  | 13 => "d" | 14 => "e" | _ => "f"
  end%char.

(** One character of a string literal, as [json.dumps] with its default
    [ensure_ascii=True] writes it: printable ASCII as it is, the quote, the
    backslash and five control characters by their short escapes, every
    other character as a four-digit [\u] escape. Strings are read as
    sequences of code points below 256. *)
Definition escape_char (c : ascii) : string :=
  let n := nat_of_ascii c in
  if bool_decide (n = 34) then backslash +:+ dquote
  else if bool_decide (n = 92) then backslash +:+ backslash
  else if bool_decide (n = 8) then backslash +:+ "b"
  else if bool_decide (n = 12) then backslash +:+ "f"
  else if bool_decide (n = 10) then backslash +:+ "n"
  else if bool_decide (n = 13) then backslash +:+ "r"
  else if bool_decide (n = 9) then backslash +:+ "t"
  else if bool_decide (32 ≤ n ≤ 126) then String c EmptyString
  else backslash +:+ "u00"
       +:+ String (hex_digit (n / 16)) (String (hex_digit (n mod 16)) EmptyString).

Fixpoint escape (s : string) : string :=
  match s with
  | EmptyString => EmptyString
  | String c s' => escape_char c +:+ escape s'
  end.

Definition quote (s : string) : string := dquote +:+ escape s +:+ dquote.

(** [json.dumps(v)] with the default separators [", "] and [": "]. *)
Fixpoint dumps (v : pyval) : string :=
  match v with
  | VNone => "null"
  | VBool true => "true"
  | VBool false => "false"
  | VStr s => quote s
  | VDict d =>
      let fix members (d : dict) : string :=
        match d with
        | [] => EmptyString
        | [(k, v)] => quote k +:+ ": " +:+ dumps v
        | (k, v) :: d' => quote k +:+ ": " +:+ dumps v +:+ ", " +:+ members d'
        end in
      "{" +:+ members d +:+ "}"
  end.

End Json.

(** ** The world the file runs in *)

(** A log record: the [logging] level and the formatted message. *)
Inductive log_level : Type := INFO | ERROR.

#[global] Instance log_level_eq_dec : EqDecision log_level.
Proof. solve_decision. Defined.

Record log_record : Type := mkLog { log_lvl : log_level; log_msg : string }.

#[global] Instance log_record_eq_dec : EqDecision log_record.
Proof. solve_decision. Defined.

(** What a module can export under the name [bp]: a blueprint, a function
    register, or some other object, on which [register_blueprint] raises
    the exception given (as a rule the [AttributeError] for the missing
    function builders). *)
Inductive pyobj : Type :=
  | Blueprint (function_builders : list string)
  | FunctionRegister (function_builders : list string)
  | OtherObject (e : exc).

(** An imported module: its dotted name and its [bp] attribute, if any. *)
Record PyModule : Type := mkModule { mod_name : string; mod_bp : option pyobj }.

(** [func.FunctionApp]: the function builders attached so far. *)
Record FunctionApp : Type := mkApp { app_function_builders : list string }.

(** The storage SDK. [from_connection_string] parses without any network
    traffic and may reject the string; [get_container_properties] is the one
    request the probe sends, failing with the exception given, if any. *)
Record BlobServiceClient : Type := mkBlobServiceClient { bsc_url : string }.

Record ContainerClient : Type :=
  mkContainerClient { cc_account_url : string; cc_container : string }.

Record StorageService : Type := mkStorage {
  from_connection_string : string → result BlobServiceClient;
  container_properties_fault : ContainerClient → option exc
}.

(** The database behind [data.cosmos_ops]: whether the configured container
    exists, the ids of its items, and the fault, if any, that each of the two
    operations meets (missing configuration, no route, no permission). *)
Record CosmosDb : Type := mkCosmos {
  db_container_exists : bool;
  db_items : list string;
  db_get_container_fault : option exc;
  db_query_fault : option exc
}.

(** The database once the container has been created if it was missing. *)
Definition with_container (db : CosmosDb) : CosmosDb :=
  mkCosmos true (db_items db) (db_get_container_fault db) (db_query_fault db).

(** Requests sent over the network. *)
Inductive io_event : Type :=
  | IoGetContainerProperties (account_url container : string)
  | IoCosmosGetContainer
  | IoCosmosQuery (query : string).

#[global] Instance io_event_eq_dec : EqDecision io_event.
Proof. solve_decision. Defined.

Definition is_storage_io (ev : io_event) : bool :=
  match ev with IoGetContainerProperties _ _ => true | _ => false end.

Definition is_cosmos_io (ev : io_event) : bool := negb (is_storage_io ev).

Record World : Type := mkWorld {
  environ : gmap string string;          (* os.environ *)
  imports : string → result PyModule;    (* outcome of importing a module *)
  storage : StorageService;
  cosmos : CosmosDb;
  g_cosmos_ops : option PyModule;        (* the global name cosmos_ops *)
  g_app : FunctionApp;                   (* the global name app *)
  log : list log_record;                 (* oldest first *)
  io : list io_event                     (* oldest first *)
}.

Definition set_cosmos (c : CosmosDb) (w : World) : World :=
  mkWorld (environ w) (imports w) (storage w) c (g_cosmos_ops w) (g_app w)
          (log w) (io w).
Definition set_g_cosmos_ops (m : option PyModule) (w : World) : World :=
  mkWorld (environ w) (imports w) (storage w) (cosmos w) m (g_app w)
          (log w) (io w).
Definition set_g_app (a : FunctionApp) (w : World) : World :=
  mkWorld (environ w) (imports w) (storage w) (cosmos w) (g_cosmos_ops w) a
          (log w) (io w).
Definition set_log (l : list log_record) (w : World) : World :=
  mkWorld (environ w) (imports w) (storage w) (cosmos w) (g_cosmos_ops w)
          (g_app w) l (io w).
Definition set_io (t : list io_event) (w : World) : World :=
  mkWorld (environ w) (imports w) (storage w) (cosmos w) (g_cosmos_ops w)
          (g_app w) (log w) t.

(** ** The monad of Python code *)

Definition M (A : Type) : Type := World → result A * World.

#[global] Instance M_ret : MRet M := λ A a w, (Ok a, w).
#[global] Instance M_bind : MBind M := λ A B f m w,
  match m w with
  | (Ok a, w') => f a w'
  | (Raise e, w') => (Raise e, w')
  end.

Definition raise {A} (e : exc) : M A := λ w, (Raise e, w).

(** One [except cls as e: body] clause. *)
Record except_clause (A : Type) : Type :=
  mkExcept { ex_class : exc_class; ex_body : exc → M A }.
Arguments mkExcept {A} ex_class ex_body.
Arguments ex_class {A} _.
Arguments ex_body {A} _.

(** The first clause whose class the exception is an instance of handles
    it; with no such clause the exception goes on. *)
Fixpoint dispatch {A} (clauses : list (except_clause A)) (e : exc) : M A :=
  match clauses with
  | [] => raise e
  | c :: cs => if isinstance e (ex_class c) then ex_body c e else dispatch cs e
  end.

(** [try: body except ...]: what the body did before it raised stays done. *)
Definition try_except {A} (body : M A) (clauses : list (except_clause A)) : M A :=
  λ w, match body w with
       | (Ok a, w') => (Ok a, w')
       | (Raise e, w') => dispatch clauses e w'
       end.

(** Primitive effects. *)
Definition lift_result {A} (r : result A) : M A := λ w, (r, w).
Definition modify (f : World → World) : M unit := λ w, (Ok (), f w).
Definition gets {A} (f : World → A) : M A := λ w, (Ok (f w), w).

Definition logging_info (msg : string) : M unit :=
  modify (λ w, set_log (log w ++ [mkLog INFO msg]) w).
Definition logging_error (msg : string) : M unit :=
  modify (λ w, set_log (log w ++ [mkLog ERROR msg]) w).

(** [os.environ.get(k)]: the value, or [None]. *)
Definition os_environ_get (k : string) : M pyval :=
  gets (λ w, str_or_none (environ w !! k)).

(** [a or b]: [b] is evaluated only when [a] is falsy. *)
Definition or_ (a b : M pyval) : M pyval :=
  x ← a; if truthy x then mret x else b.

(** A library call that needs a [str] argument. *)
Definition as_str (v : pyval) : M string :=
  match v with
  | VStr s => mret s
  | _ => raise (mkExc TypeError "expected str")
  end.

Definition emit (ev : io_event) : M unit :=
  modify (λ w, set_io (io w ++ [ev]) w).

(** ** Process start: lines 32 to 90 *)

(** [from pkg import name]. *)
Definition import_from (pkg name : string) : M PyModule :=
  λ w, (imports w (pkg +:+ "." +:+ name), w).

(** Lines 32 to 36: the guarded import that binds the global [cosmos_ops]. *)
Definition import_cosmos_ops : M unit :=
  try_except
    (m ← import_from "data" "cosmos_ops";
     modify (set_g_cosmos_ops (Some m)))
    [mkExcept Exception (λ import_err,
       logging_error ("Failed to import cosmos_ops during startup: "
                      +:+ exc_str import_err))].

(** Line 38: [app = func.FunctionApp()]. *)
Definition new_app : M unit := modify (set_g_app (mkApp [])).

(** [module.bp]. *)
Definition getattr_bp (m : PyModule) : M pyobj :=
  match mod_bp m with
  | Some o => mret o
  | None =>
      raise (mkExc AttributeError
               ("module '" +:+ mod_name m +:+ "' has no attribute 'bp'"))
  end.

(** [app.register_blueprint(o)], as azure.functions defines it: a
    [FunctionRegister] is refused, anything else has its function builders
    appended to those of the app. *)
Definition app_register_blueprint (o : pyobj) : M unit :=
  match o with
  | FunctionRegister _ =>
      raise (mkExc TypeError "functions can not be type of FunctionRegister!")
  | Blueprint fbs =>
      modify (λ w, set_g_app (mkApp (app_function_builders (g_app w) ++ fbs)) w)
  | OtherObject e => raise e
  end.

(** One of the five registration blocks of lines 43 to 90; they differ in
    the package, the module and the label of the log lines only. *)
Definition register_block (pkg name label : string) : M unit :=
  try_except
    (m ← import_from pkg name;
     bp ← getattr_bp m;
     app_register_blueprint bp;;
     logging_info ("✅ " +:+ label +:+ " blueprint registered successfully"))
    [mkExcept ImportError (λ e,
       logging_error ("❌ Import error for " +:+ label +:+ " blueprint: "
                      +:+ exc_str e));
     mkExcept Exception (λ e,
       logging_error ("❌ " +:+ label +:+ " blueprint registration failed: "
                      +:+ exc_str e))].

(** The modules in the order of the file: package, module, label. *)
Definition blueprint_modules : list (string * string * string) :=
  [("functions", "bp_snippy", "Snippy");
   ("routes", "query", "Query");
   ("functions", "bp_embeddings", "Embeddings");
   ("functions", "bp_ingestion", "Ingestion");
   ("functions", "bp_multi_agent", "Multi-agent")].

(** Lines 43 to 90. *)
Definition register_blueprints : M unit :=
  register_block "functions" "bp_snippy" "Snippy";;
  register_block "routes" "query" "Query";;
  register_block "functions" "bp_embeddings" "Embeddings";;
  register_block "functions" "bp_ingestion" "Ingestion";;
  register_block "functions" "bp_multi_agent" "Multi-agent".

(** [@app.route(...)] on a handler: the handler joins the app. *)
Definition app_route (fname : string) : M unit :=
  modify (λ w, set_g_app (mkApp (app_function_builders (g_app w) ++ [fname])) w).

(** The module body from line 32 on. *)
Definition module_body : M unit :=
  import_cosmos_ops;;
  new_app;;
  register_blueprints;;
  app_route "http_health_check";;
  app_route "http_health_check_extended".

(** ** The collaborators of the probes *)

(** [BlobServiceClient.from_connection_string(conn_str)]. *)
Definition BlobServiceClient_from_connection_string (conn_str : pyval)
  : M BlobServiceClient :=
  s ← as_str conn_str;
  parse ← gets (λ w, from_connection_string (storage w));
  lift_result (parse s).

(** [blob_client.get_container_client(name)]: builds a client, sends nothing. *)
Definition get_container_client (blob_client : BlobServiceClient) (name : pyval)
  : M ContainerClient :=
  s ← as_str name;
  mret (mkContainerClient (bsc_url blob_client) s).

(** [await container_client.get_container_properties()]: one request. *)
Definition get_container_properties (cc : ContainerClient) : M unit :=
  emit (IoGetContainerProperties (cc_account_url cc) (cc_container cc));;
  fault ← gets (λ w, container_properties_fault (storage w) cc);
  match fault with
  | Some e => raise e
  | None => mret ()
  end.

(** The global name [cosmos_ops]; unbound when the import at line 34 failed. *)
Definition load_cosmos_ops : M PyModule :=
  g ← gets g_cosmos_ops;
  match g with
  | Some m => mret m
  | None => raise (mkExc NameError "name 'cosmos_ops' is not defined")
  end.

(** A handle on the container, and the lazy result of [query_items]. *)
Record ContainerProxy : Type := mkContainerProxy { }.
Record AsyncItemPaged : Type := mkAsyncItemPaged { aip_query : string }.

(** Modelled from the spec: [data/cosmos_ops.py] is not among the sources.
    Its [get_container] is the database capability "get or create container
    handle" (the call site says "get (and if needed create) the container"):
    one request that fails with the fault the database meets, and otherwise
    leaves the container existing and returns a handle on it. *)
Definition cosmos_ops_get_container (cosmos_ops : PyModule) : M ContainerProxy :=
  emit IoCosmosGetContainer;;
  db ← gets cosmos;
  match db_get_container_fault db with
  | Some e => raise e
  | None =>
      modify (set_cosmos (with_container db));;
      mret mkContainerProxy
  end.

(** [container.query_items(query=q)]: nothing is sent before the iteration. *)
Definition query_items (container : ContainerProxy) (q : string) : AsyncItemPaged :=
  mkAsyncItemPaged q.

Fixpoint strip_prefix (p s : string) : option string :=
  match p, s with
  | EmptyString, _ => Some s
  | String a p', String b s' =>
      if bool_decide (a = b) then strip_prefix p' s' else None
  | String _ _, EmptyString => None
  end.

Definition digit_of (c : ascii) : option nat :=
  let n := nat_of_ascii c in
  if bool_decide (48 ≤ n ≤ 57) then Some (n - 48) else None.

Fixpoint read_nat (acc : option nat) (s : string) : option nat :=
  match s with
  | EmptyString => acc
  | String c s' =>
      match digit_of c with
      | Some d => read_nat (Some (10 * default 0 acc + d)) s'
      | None => acc
      end
  end.

(** The bound [N] of a query that starts with [SELECT TOP N]. *)
Definition top_of_query (q : string) : option nat :=
  s ← strip_prefix "SELECT TOP " q; read_nat None s.

(** What the database answers to a query over the container, each item
    projected on its id: all of them, or the first [N] under [TOP N]. *)
Definition run_query (q : string) (items : list string) : list pyval :=
  let ids := (λ i, VDict [("id", VStr i)]) <$> items in
  match top_of_query q with
  | Some n => take n ids
  | None => ids
  end.

(** [[item async for item in query_iter]]: the query is sent and the whole
    answer collected. *)
Definition async_list (query_iter : AsyncItemPaged) : M (list pyval) :=
  emit (IoCosmosQuery (aip_query query_iter));;
  db ← gets cosmos;
  match db_query_fault db with
  | Some e => raise e
  | None => mret (run_query (aip_query query_iter) (db_items db))
  end.

(** ** The handlers *)

Record HttpRequest : Type := mkRequest { req_method : string; req_url : string }.

Record HttpResponse : Type := mkResponse {
  resp_body : string;
  resp_mimetype : string;
  resp_status_code : Z
}.

#[global] Instance HttpResponse_eq_dec : EqDecision HttpResponse.
Proof. solve_decision. Defined.

(** Lines 107 to 112: the try block of the shallow handler. *)
Definition http_health_check_try : M HttpResponse :=
  logging_info "Health check endpoint called";;
  mret (mkResponse (Json.dumps (VDict [("status", VStr "ok")]))
                   "application/json" 200).

(** Lines 114 to 119: its except block. *)
Definition http_health_check_except (e : exc) : M HttpResponse :=
  logging_error ("Error in health check: " +:+ exc_str e);;
  mret (mkResponse
          (Json.dumps (VDict [("status", VStr "error");
                              ("message", VStr (exc_str e))]))
          "application/json" 500).

(** Lines 98 to 119. *)
Definition http_health_check (req : HttpRequest) : M HttpResponse :=
  try_except http_health_check_try
    [mkExcept Exception http_health_check_except].

(** Lines 133 to 151: the try block of the storage probe. It updates
    [storage_result] in its last statement, after everything that can
    raise. *)
Definition storage_try (storage_result : dict) : M dict :=
  conn_str ← or_ (os_environ_get "AzureWebJobsStorage")
                 (os_environ_get "STORAGE_CONNECTION_STRING");
  ingestion_container ←
    or_ (or_ (os_environ_get "INGESTION_CONTAINER")
             (os_environ_get "STORAGE_CONTAINER_SNIPPETINPUT"))
        (mret (VStr "snippet-input"));
  (if negb (truthy conn_str)
   then raise (mkExc ValueError
                 "Missing AzureWebJobsStorage/ STORAGE_CONNECTION_STRING env var")
   else mret ());;
  blob_client ← BlobServiceClient_from_connection_string conn_str;
  container_client ← get_container_client blob_client ingestion_container;
  get_container_properties container_client;;
  mret (dict_update storage_result
          [("ok", VBool true);
           ("container", ingestion_container);
           ("account_url", VStr (bsc_url blob_client))]).

(** Lines 128 and 131 to 154: the storage probe. When the try block raises,
    [storage_result] is still as line 128 made it. *)
Definition storage_probe : M dict :=
  let storage_result : dict := [("ok", VBool false)] in
  try_except (storage_try storage_result)
    [mkExcept Exception (λ e,
       logging_error ("Storage health check failed: " +:+ exc_str e);;
       mret (dict_update storage_result [("error", VStr (exc_str e))]))].

(** Lines 158 to 169: the try block of the Cosmos DB probe. *)
Definition cosmos_try (cosmos_result : dict) : M dict :=
  cosmos_ops ← load_cosmos_ops;
  container ← cosmos_ops_get_container cosmos_ops;
  let query_iter := query_items container "SELECT TOP 1 c.id FROM c" in
  items ← async_list query_iter;
  let _ := take 1 items in
  database ← os_environ_get "COSMOS_DATABASE_NAME";
  container_name ← os_environ_get "COSMOS_CONTAINER_NAME";
  mret (dict_update cosmos_result
          [("ok", VBool true);
           ("database", database);
           ("container", container_name)]).

(** Lines 129 and 156 to 172: the Cosmos DB probe. *)
Definition cosmos_probe : M dict :=
  let cosmos_result : dict := [("ok", VBool false)] in
  try_except (cosmos_try cosmos_result)
    [mkExcept Exception (λ e,
       logging_error ("Cosmos health check failed: " +:+ exc_str e);;
       mret (dict_update cosmos_result [("error", VStr (exc_str e))]))].

(** Lines 174 to 188: the aggregation of the two results. *)
Definition overall_ok (storage_result cosmos_result : dict) : pyval :=
  py_and (dict_get storage_result "ok") (dict_get cosmos_result "ok").

Definition status (storage_result cosmos_result : dict) : string :=
  if truthy (overall_ok storage_result cosmos_result) then "ok" else "error".

Definition http_status (storage_result cosmos_result : dict) : Z :=
  if truthy (overall_ok storage_result cosmos_result) then 200 else 500.

Definition body (storage_result cosmos_result : dict) : dict :=
  [("status", VStr (status storage_result cosmos_result));
   ("storage", VDict storage_result);
   ("cosmos", VDict cosmos_result)].

Definition health_response (storage_result cosmos_result : dict) : HttpResponse :=
  mkResponse (Json.dumps (VDict (body storage_result cosmos_result)))
             "application/json"
             (http_status storage_result cosmos_result).

(** Lines 123 to 188. *)
Definition http_health_check_extended (req : HttpRequest) : M HttpResponse :=
  logging_info "Extended health check endpoint called";;
  storage_result ← storage_probe;
  cosmos_result ← cosmos_probe;
  mret (health_response storage_result cosmos_result).

(** ** Vocabulary of the statements *)

(** [os.environ.get(k)] in a world. *)
Definition getenv (w : World) (k : string) : pyval := str_or_none (environ w !! k).

(** The values lines 133 and 134 to 138 compute. *)
Definition conn_str_of (w : World) : pyval :=
  py_or (getenv w "AzureWebJobsStorage") (getenv w "STORAGE_CONNECTION_STRING").

Definition ingestion_container_of (w : World) : pyval :=
  py_or (py_or (getenv w "INGESTION_CONTAINER")
               (getenv w "STORAGE_CONTAINER_SNIPPETINPUT"))
        (VStr "snippet-input").

Definition missing_conn_str : exc :=
  mkExc ValueError "Missing AzureWebJobsStorage/ STORAGE_CONNECTION_STRING env var".

Definition cosmos_ops_undefined : exc :=
  mkExc NameError "name 'cosmos_ops' is not defined".

(** The two shapes of a probe result that the handlers build. *)
Definition failed_result (e : exc) : dict :=
  [("ok", VBool false); ("error", VStr (exc_str e))].

Definition storage_ok_result (container : pyval) (account_url : string) : dict :=
  [("ok", VBool true); ("container", container); ("account_url", VStr account_url)].

Definition cosmos_ok_result (w : World) : dict :=
  [("ok", VBool true);
   ("database", getenv w "COSMOS_DATABASE_NAME");
   ("container", getenv w "COSMOS_CONTAINER_NAME")].

Definition logged (lvl : log_level) (msg : string) (w : World) : World :=
  set_log (log w ++ [mkLog lvl msg]) w.

Definition sent (evs : list io_event) (w : World) : World :=
  set_io (io w ++ evs) w.

(** The backends raise nothing but instances of [Exception]. *)
Definition storage_raises_Exceptions (w : World) : Prop :=
  (∀ s e, from_connection_string (storage w) s = Raise e →
          isinstance e Exception = true) ∧
  (∀ cc e, container_properties_fault (storage w) cc = Some e →
           isinstance e Exception = true).

Definition cosmos_raises_Exceptions (w : World) : Prop :=
  (∀ e, db_get_container_fault (cosmos w) = Some e →
        isinstance e Exception = true) ∧
  (∀ e, db_query_fault (cosmos w) = Some e → isinstance e Exception = true).

(** A module fails, if it does, with an instance of [Exception]: at its
    import, or when its [bp] is registered. *)
Definition fails_with_Exception (r : result PyModule) : bool :=
  match r with
  | Raise e => isinstance e Exception
  | Ok m =>
      match mod_bp m with
      | Some (OtherObject e) => isinstance e Exception
      | _ => true
      end
  end.

(** The import path of an entry of [blueprint_modules]. *)
Definition module_path (m : string * string * string) : string :=
  m.1.1 +:+ "." +:+ m.1.2.

(** A world in which nothing is bound, logged or sent yet and every import
    has the outcome [r]: the place to run one registration block alone. *)
Definition blank_world (r : result PyModule) : World :=
  mkWorld ∅ (λ _, r)
          (mkStorage (λ _, Ok (mkBlobServiceClient EmptyString)) (λ _, None))
          (mkCosmos false [] None None) None (mkApp []) [] [].

(** What the registration block of a module writes to the log and attaches
    to the app when it runs alone on the import outcome [r]. *)
Definition alone (r : result PyModule) (m : string * string * string)
  : list log_record * list string :=
  let w := (register_block m.1.1 m.1.2 m.2 (blank_world r)).2 in
  (log w, app_function_builders (g_app w)).

(** The initial value of [storage_result] and of [cosmos_result]. *)
Definition initial_result : dict := [("ok", VBool false)].

(** The query of line 161. *)
Definition top1 : string := "SELECT TOP 1 c.id FROM c".

(** A world after more log records, more requests, more function builders. *)
Definition lines (ls : list log_record) (w : World) : World :=
  set_log (log w ++ ls) w.

Definition attached (fbs : list string) (w : World) : World :=
  set_g_app (mkApp (app_function_builders (g_app w) ++ fbs)) w.

(** The world when the probes start: line 126 has logged the call. *)
Definition started : World → World :=
  logged INFO "Extended health check endpoint called".

(** The world after the except block of a probe has logged the failure. *)
Definition storage_failed (e : exc) : World → World :=
  logged ERROR ("Storage health check failed: " +:+ exc_str e).
Definition cosmos_failed (e : exc) : World → World :=
  logged ERROR ("Cosmos health check failed: " +:+ exc_str e).

(** The four ways the try block of the storage probe can end. *)
Variant storage_try_spec (sr : dict) (w : World) : result dict * World → Prop :=
  | storage_unconfigured :
      truthy (conn_str_of w) = false →
      storage_try_spec sr w (Raise missing_conn_str, w)
  | storage_bad_conn_str s e :
      truthy (conn_str_of w) = true →
      conn_str_of w = VStr s →
      from_connection_string (storage w) s = Raise e →
      storage_try_spec sr w (Raise e, w)
  | storage_request_failed s bc c e :
      truthy (conn_str_of w) = true →
      conn_str_of w = VStr s →
      from_connection_string (storage w) s = Ok bc →
      ingestion_container_of w = VStr c →
      container_properties_fault (storage w) (mkContainerClient (bsc_url bc) c) = Some e →
      storage_try_spec sr w
        (Raise e, sent [IoGetContainerProperties (bsc_url bc) c] w)
  | storage_request_ok s bc c :
      truthy (conn_str_of w) = true →
      conn_str_of w = VStr s →
      from_connection_string (storage w) s = Ok bc →
      ingestion_container_of w = VStr c →
      container_properties_fault (storage w) (mkContainerClient (bsc_url bc) c) = None →
      storage_try_spec sr w
        (Ok (dict_update sr (storage_ok_result (VStr c) (bsc_url bc))),
         sent [IoGetContainerProperties (bsc_url bc) c] w).

(** The four ways the try block of the Cosmos DB probe can end. *)
Variant cosmos_try_spec (cr : dict) (w : World) : result dict * World → Prop :=
  | cosmos_unbound :
      g_cosmos_ops w = None →
      cosmos_try_spec cr w (Raise cosmos_ops_undefined, w)
  | cosmos_get_failed m e :
      g_cosmos_ops w = Some m →
      db_get_container_fault (cosmos w) = Some e →
      cosmos_try_spec cr w (Raise e, sent [IoCosmosGetContainer] w)
  | cosmos_query_failed m e :
      g_cosmos_ops w = Some m →
      db_get_container_fault (cosmos w) = None →
      db_query_fault (cosmos w) = Some e →
      cosmos_try_spec cr w
        (Raise e,
         sent [IoCosmosQuery top1]
           (set_cosmos (with_container (cosmos w)) (sent [IoCosmosGetContainer] w)))
  | cosmos_answered m :
      g_cosmos_ops w = Some m →
      db_get_container_fault (cosmos w) = None →
      db_query_fault (cosmos w) = None →
      cosmos_try_spec cr w
        (Ok (dict_update cr (cosmos_ok_result w)),
         sent [IoCosmosQuery top1]
           (set_cosmos (with_container (cosmos w)) (sent [IoCosmosGetContainer] w))).

(** The entry "ok" of a probe result is the boolean [b]. *)
Definition flag (d : dict) (b : bool) : Prop := dict_lookup "ok" d = Some (VBool b).

(** The request completes: both probes hand over a result and the handler
    returns the response built from the two. *)
Definition responds (req : HttpRequest) (w : World) (sr cr : dict) (w' : World) : Prop :=
  ∃ w1, storage_probe (started w) = (Ok sr, w1) ∧
        cosmos_probe w1 = (Ok cr, w') ∧
        http_health_check_extended req w = (Ok (health_response sr cr), w').

(** What a probe leaves alone. *)
Definition same_setting (w w' : World) : Prop :=
  environ w' = environ w ∧ imports w' = imports w ∧ storage w' = storage w ∧
  g_cosmos_ops w' = g_cosmos_ops w ∧ g_app w' = g_app w.

(** The body and the response of the shallow handler. *)
Definition ok_body : string :=
  "{" +:+ Json.dquote +:+ "status" +:+ Json.dquote +:+ ": "
      +:+ Json.dquote +:+ "ok" +:+ Json.dquote +:+ "}".

Definition ok_response : HttpResponse := mkResponse ok_body "application/json" 200.

(** Every blueprint module fails, if it does, with an instance of
    [Exception]. *)
Definition modules_fail_with_Exceptions (w : World) : bool :=
  forallb (λ m, fails_with_Exception (imports w (module_path m))) blueprint_modules.

(** The registration blocks of a list of modules, one after the other. *)
Fixpoint register_all (ms : list (string * string * string)) : M unit :=
  match ms with
  | [] => mret ()
  | m :: ms' => register_block m.1.1 m.1.2 m.2;; register_all ms'
  end.

(** What a module contributes to the log and to the app, computed from the
    outcome of its own import alone. *)
Definition outcome (w : World) (m : string * string * string)
  : list log_record * list string :=
  alone (imports w (module_path m)) m.

(** The value of the first of the given settings that is present and not
    empty. *)
Fixpoint first_set (w : World) (keys : list string) : option string :=
  match keys with
  | [] => None
  | k :: keys' =>
      match environ w !! k with
      | Some s => if bool_decide (s = EmptyString) then first_set w keys' else Some s
      | None => first_set w keys'
      end
  end.

Definition connection_settings : list string :=
  ["AzureWebJobsStorage"; "STORAGE_CONNECTION_STRING"].

Definition container_settings : list string :=
  ["INGESTION_CONTAINER"; "STORAGE_CONTAINER_SNIPPETINPUT"].

(** The container the storage probe asks for. *)
Definition chosen_container (w : World) : string :=
  default "snippet-input" (first_set w container_settings).

(** The log record that comes with the "error" entry of a probe result. *)
Definition error_line (prefix : string) (d : dict) : list log_record :=
  match dict_lookup "error" d with
  | Some (VStr s) => [mkLog ERROR (prefix +:+ s)]
  | _ => []
  end.

(** A character between the space and the tilde, and a string of such. *)
Definition printable (c : ascii) : bool :=
  bool_decide (32 ≤ nat_of_ascii c ≤ 126).

Fixpoint all_printable (s : string) : bool :=
  match s with
  | EmptyString => true
  | String c s' => printable c && all_printable s'
  end.

(** ** Sample worlds *)

Module Samples.

Definition req : HttpRequest := mkRequest "GET" "/api/health_extended".

Definition account : BlobServiceClient :=
  mkBlobServiceClient "https://snippy.blob.core.windows.net/".

Definition HttpResponseError : exc_class :=
  Derived "HttpResponseError" (Derived "AzureError" Exception).

Definition not_found : exc :=
  mkExc (Derived "ResourceNotFoundError" HttpResponseError)
        "The specified container does not exist.".

Definition unreachable : exc :=
  mkExc (Derived "ServiceRequestError" (Derived "AzureError" Exception))
        "Cannot connect to host".

Definition cancelled : exc := mkExc CancelledError EmptyString.

Definition storage_up : StorageService := mkStorage (λ _, Ok account) (λ _, None).
Definition storage_down : StorageService :=
  mkStorage (λ _, Ok account) (λ _, Some not_found).
Definition storage_cancelled : StorageService :=
  mkStorage (λ _, Ok account) (λ _, Some cancelled).

Definition cosmos_up : CosmosDb := mkCosmos true ["s1"; "s2"; "s3"] None None.
Definition cosmos_down : CosmosDb := mkCosmos true ["s1"] (Some unreachable) None.
Definition cosmos_fresh : CosmosDb := mkCosmos false [] None None.

Definition settings : gmap string string :=
  <["AzureWebJobsStorage" := "UseDevelopmentStorage=true"]>
  (<["COSMOS_DATABASE_NAME" := "dev-snippet-db"]>
   (<["COSMOS_CONTAINER_NAME" := "code-snippets"]> ∅)).

Definition no_settings : gmap string string := ∅.

Definition the_cosmos_ops : PyModule := mkModule "data.cosmos_ops" None.

(** The import system of a complete deployment: each blueprint module
    exports a blueprint with one function. *)
Definition all_present (name : string) : result PyModule :=
  if bool_decide (name = "data.cosmos_ops") then Ok the_cosmos_ops
  else Ok (mkModule name (Some (Blueprint ["fn:" +:+ name]))).

(** A deployment in which [routes.query] is missing, [functions.bp_ingestion]
    exports a function register, and [data.cosmos_ops] fails on a missing
    dependency. *)
Definition some_broken (name : string) : result PyModule :=
  if bool_decide (name = "routes.query")
  then Raise (mkExc ModuleNotFoundError "No module named 'routes'")
  else if bool_decide (name = "functions.bp_ingestion")
  then Ok (mkModule name (Some (FunctionRegister [])))
  else if bool_decide (name = "data.cosmos_ops")
  then Raise (mkExc ModuleNotFoundError "No module named 'azure.cosmos'")
  else all_present name.

(** A deployment whose first blueprint module ends the interpreter. *)
Definition exits_early (name : string) : result PyModule :=
  if bool_decide (name = "functions.bp_snippy")
  then Raise (mkExc SystemExit "1")
  else all_present name.

Definition world (env : gmap string string) (st : StorageService)
    (db : CosmosDb) (ops : option PyModule) : World :=
  mkWorld env all_present st db ops
          (mkApp ["http_health_check"; "http_health_check_extended"]) [] [].

Definition healthy : World := world settings storage_up cosmos_up (Some the_cosmos_ops).
Definition no_storage : World := world settings storage_down cosmos_up (Some the_cosmos_ops).
Definition no_cosmos : World := world settings storage_up cosmos_down (Some the_cosmos_ops).
Definition nothing_up : World := world settings storage_down cosmos_down (Some the_cosmos_ops).
Definition unconfigured : World := world no_settings storage_up cosmos_up (Some the_cosmos_ops).
Definition first_run : World := world settings storage_up cosmos_fresh (Some the_cosmos_ops).
Definition interrupted : World := world settings storage_cancelled cosmos_up (Some the_cosmos_ops).
Definition no_cosmos_ops : World := world settings storage_up cosmos_up None.

(** A process about to execute the module body. *)
Definition at_start (imp : string → result PyModule) : World :=
  mkWorld settings imp storage_up cosmos_up None (mkApp []) [] [].

(** Settings that use the second choice for the connection string and for
    the container. *)
Definition second_choices : gmap string string :=
  <["AzureWebJobsStorage" := EmptyString]>
  (<["STORAGE_CONNECTION_STRING" := "UseDevelopmentStorage=true"]>
   (<["STORAGE_CONTAINER_SNIPPETINPUT" := "uploads"]> ∅)).

Definition empty_connection_string : gmap string string :=
  <["AzureWebJobsStorage" := EmptyString]> ∅.

Definition malformed : exc :=
  mkExc ValueError "Connection string is either blank or malformed.".

Definition storage_rejecting : StorageService :=
  mkStorage (λ _, Raise malformed) (λ _, None).

Definition fallbacks : World :=
  world second_choices storage_up cosmos_up (Some the_cosmos_ops).
Definition blank_connection_string : World :=
  world empty_connection_string storage_up cosmos_up (Some the_cosmos_ops).
Definition rejected : World :=
  world settings storage_rejecting cosmos_up (Some the_cosmos_ops).

(** A deployment in which [routes.query] is missing and the import of
    [functions.bp_embeddings] is interrupted from the keyboard. *)
Definition interrupted_at_third (name : string) : result PyModule :=
  if bool_decide (name = "routes.query")
  then Raise (mkExc ModuleNotFoundError "No module named 'routes'")
  else if bool_decide (name = "functions.bp_embeddings")
  then Raise (mkExc KeyboardInterrupt EmptyString)
  else all_present name.

End Samples.

(** * Properties *)

(** ** Running the monad *)

Ltac mrun :=
  unfold logging_info, logging_error, os_environ_get, emit in *;
  unfold mbind, M_bind, mret, M_ret, raise, modify, gets, lift_result in *;
  simpl in *.

Section try_except.
Context {A : Type}.
Implicit Types (body : M A) (w : World).

Lemma try_except_ok body clauses w a w' :
  body w = (Ok a, w') → try_except body clauses w = (Ok a, w').
Proof. intros H. unfold try_except. by rewrite H. Qed.

Lemma try_except_caught body cls h w e w' :
  body w = (Raise e, w') → isinstance e cls = true →
  try_except body [mkExcept cls h] w = h e w'.
Proof. intros H Hi. unfold try_except. rewrite H. simpl. by rewrite Hi. Qed.

Lemma try_except_passed body cls h w e w' :
  body w = (Raise e, w') → isinstance e cls = false →
  try_except body [mkExcept cls h] w = (Raise e, w').
Proof. intros H Hi. unfold try_except. rewrite H. simpl. by rewrite Hi. Qed.
End try_except.

(** An [except ImportError] clause takes a part of what [except Exception]
    takes. *)
Lemma ImportError_is_Exception e :
  isinstance e ImportError = true → isinstance e Exception = true.
Proof.
  destruct e as [c s]. unfold isinstance, issubclass. simpl.
  induction c as [| | | | | | | | | | | | |n b IH]; try (by vm_compute).
  rewrite !bool_decide_eq_true in *. simpl. rewrite !elem_of_cons.
  intros [?|?]; [discriminate | right; auto].
Qed.

(** ** The try blocks of the probes *)

Lemma or_getenv a b w :
  or_ (os_environ_get a) (os_environ_get b) w = (Ok (py_or (getenv w a) (getenv w b)), w).
Proof. unfold or_, py_or, getenv. mrun. by destruct (truthy _). Qed.

Lemma conn_str_cases w :
  (truthy (conn_str_of w) = false) ∨ (∃ s, conn_str_of w = VStr s ∧ truthy (VStr s) = true).
Proof.
  unfold conn_str_of, py_or, getenv.
  destruct (environ w !! "AzureWebJobsStorage") as [a|] eqn:Ha; simpl.
  - destruct (negb (bool_decide (a = EmptyString))) eqn:Hn; [right; eauto|].
    destruct (environ w !! "STORAGE_CONNECTION_STRING") as [b|]; simpl; [|by left].
    destruct (negb (bool_decide (b = EmptyString))) eqn:Hb; [right; eauto| by left].
  - destruct (environ w !! "STORAGE_CONNECTION_STRING") as [b|]; simpl; [|by left].
    destruct (negb (bool_decide (b = EmptyString))) eqn:Hb; [right; eauto| by left].
Qed.

Lemma ingestion_container_is_str w : ∃ c, ingestion_container_of w = VStr c.
Proof.
  unfold ingestion_container_of, py_or, getenv.
  destruct (environ w !! "INGESTION_CONTAINER") as [a|];
    destruct (environ w !! "STORAGE_CONTAINER_SNIPPETINPUT") as [b|]; simpl;
    repeat (match goal with
            | |- context [bool_decide (?x = EmptyString)] =>
                destruct (bool_decide (x = EmptyString)); simpl
            end); eauto.
Qed.

Lemma storage_try_run sr w : storage_try_spec sr w (storage_try sr w).
Proof.
  unfold storage_try.
  unfold mbind at 1, M_bind at 1. rewrite or_getenv. fold (conn_str_of w).
  unfold mbind at 1, M_bind at 1.
  assert (or_ (or_ (os_environ_get "INGESTION_CONTAINER")
                   (os_environ_get "STORAGE_CONTAINER_SNIPPETINPUT"))
              (mret (VStr "snippet-input")) w = (Ok (ingestion_container_of w), w)) as ->.
  { unfold or_ at 1. unfold mbind, M_bind. rewrite or_getenv.
    unfold ingestion_container_of. unfold py_or at 3.
    by destruct (truthy (py_or _ _)). }
  destruct (ingestion_container_is_str w) as [c Hc]. rewrite Hc.
  destruct (conn_str_cases w) as [Hf|(s & Hs & Ht)].
  - rewrite Hf. simpl. mrun. by constructor.
  - assert (truthy (conn_str_of w) = true) as Ht' by (by rewrite Hs).
    rewrite Hs, Ht. simpl.
    unfold BlobServiceClient_from_connection_string, get_container_client,
      get_container_properties, as_str. mrun. simpl.
    destruct (from_connection_string (storage w) s) as [bc|e] eqn:Hp.
    + simpl.
      destruct (container_properties_fault (storage w) _) as [e|] eqn:Hq.
      * eapply storage_request_failed; eauto.
      * eapply storage_request_ok; eauto.
    + eapply storage_bad_conn_str; eauto.
Qed.

Lemma cosmos_try_run cr w : cosmos_try_spec cr w (cosmos_try cr w).
Proof.
  unfold cosmos_try, load_cosmos_ops, cosmos_ops_get_container, async_list,
    query_items. mrun.
  destruct (g_cosmos_ops w) as [m|] eqn:Hg; [|by constructor].
  destruct (db_get_container_fault (cosmos w)) as [e|] eqn:Hf.
  { exact (cosmos_get_failed cr w m e Hg Hf). }
  change (db_query_fault (cosmos (set_cosmos (with_container (cosmos w)) _)))
    with (db_query_fault (cosmos w)).
  destruct (db_query_fault (cosmos w)) as [e|] eqn:Hq.
  - exact (cosmos_query_failed cr w m e Hg Hf Hq).
  - exact (cosmos_answered cr w m Hg Hf Hq).
Qed.

(** ** The probes *)

Lemma storage_probe_run w :
  storage_probe w =
    match storage_try [("ok", VBool false)] w with
    | (Ok d, w') => (Ok d, w')
    | (Raise e, w') =>
        if isinstance e Exception
        then (Ok (failed_result e), storage_failed e w')
        else (Raise e, w')
    end.
Proof.
  unfold storage_probe, try_except.
  destruct (storage_try _ w) as [[d|e] w']; [done|]. simpl.
  by destruct (isinstance e Exception).
Qed.

Lemma cosmos_probe_run w :
  cosmos_probe w =
    match cosmos_try [("ok", VBool false)] w with
    | (Ok d, w') => (Ok d, w')
    | (Raise e, w') =>
        if isinstance e Exception
        then (Ok (failed_result e), cosmos_failed e w')
        else (Raise e, w')
    end.
Proof.
  unfold cosmos_probe, try_except.
  destruct (cosmos_try _ w) as [[d|e] w']; [done|]. simpl.
  by destruct (isinstance e Exception).
Qed.

Lemma storage_probe_flag w sr w' :
  storage_probe w = (Ok sr, w') → ∃ b, flag sr b.
Proof.
  rewrite storage_probe_run.
  destruct (storage_try_run [("ok", VBool false)] w) as [?|? e ? ? ?|? ? ? e ? ? ? ? ?|];
    try (destruct (isinstance _ Exception)); intros [= <- <-];
    by eexists.
Qed.

Lemma cosmos_probe_flag w cr w' :
  cosmos_probe w = (Ok cr, w') → ∃ b, flag cr b.
Proof.
  rewrite cosmos_probe_run.
  destruct (cosmos_try_run [("ok", VBool false)] w);
    try (destruct (isinstance _ Exception)); intros [= <- <-];
    by eexists.
Qed.

(** What leaves a probe as an exception is no instance of [Exception]. *)
Lemma storage_probe_raise w e w' :
  storage_probe w = (Raise e, w') → isinstance e Exception = false.
Proof.
  rewrite storage_probe_run.
  destruct (storage_try [("ok", VBool false)] w) as [[d|e0] w0]; [done|].
  destruct (isinstance e0 Exception) eqn:H; [done|]. by intros [= <- <-].
Qed.

Lemma cosmos_probe_raise w e w' :
  cosmos_probe w = (Raise e, w') → isinstance e Exception = false.
Proof.
  rewrite cosmos_probe_run.
  destruct (cosmos_try [("ok", VBool false)] w) as [[d|e0] w0]; [done|].
  destruct (isinstance e0 Exception) eqn:H; [done|]. by intros [= <- <-].
Qed.

Lemma storage_probe_returns w :
  storage_raises_Exceptions w → ∃ sr w', storage_probe w = (Ok sr, w').
Proof.
  intros [Hp Hf]. rewrite storage_probe_run.
  destruct (storage_try_run [("ok", VBool false)] w) as [?|? e ? ? He|? ? ? e ? ? ? ? He|];
    eauto.
  - rewrite (Hp _ _ He). eauto.
  - rewrite (Hf _ _ He). eauto.
Qed.

Lemma cosmos_probe_returns w :
  cosmos_raises_Exceptions w → ∃ cr w', cosmos_probe w = (Ok cr, w').
Proof.
  intros [Hg Hq]. rewrite cosmos_probe_run.
  destruct (cosmos_try_run [("ok", VBool false)] w) as [?|? e ? He|? e ? ? He|];
    eauto.
  - rewrite (Hg _ He). eauto.
  - rewrite (Hq _ He). eauto.
Qed.

Lemma storage_probe_effects w :
  ∃ evs,
    (evs = [] ∨ ∃ u c, evs = [IoGetContainerProperties u c]) ∧
    io (storage_probe w).2 = io w ++ evs ∧
    same_setting w (storage_probe w).2 ∧
    cosmos (storage_probe w).2 = cosmos w.
Proof.
  rewrite storage_probe_run.
  destruct (storage_try_run [("ok", VBool false)] w) as [?|? e ? ? ?|? bc c e ? ? ? ? ?|? bc c ? ? ? ? ?];
    try (destruct (isinstance _ Exception)); simpl;
    first [ exists []; split; [by left|]; by rewrite app_nil_r
          | exists [IoGetContainerProperties (bsc_url bc) c]; split; [right; eauto|done] ].
Qed.

Lemma cosmos_probe_effects w :
  ∃ evs,
    (evs = [] ∧ cosmos (cosmos_probe w).2 = cosmos w
     ∨ evs = [IoCosmosGetContainer] ∧ cosmos (cosmos_probe w).2 = cosmos w
     ∨ evs = [IoCosmosGetContainer; IoCosmosQuery top1] ∧
       cosmos (cosmos_probe w).2 = with_container (cosmos w)) ∧
    io (cosmos_probe w).2 = io w ++ evs ∧
    same_setting w (cosmos_probe w).2.
Proof.
  rewrite cosmos_probe_run.
  destruct (cosmos_try_run [("ok", VBool false)] w);
    try (destruct (isinstance _ Exception)); simpl.
  1,2: exists []; split; [by left|]; by rewrite app_nil_r.
  1,2: exists [IoCosmosGetContainer]; split; [right; by left|done].
  all: exists [IoCosmosGetContainer; IoCosmosQuery top1];
    (split; [right; by right|]); by rewrite <- app_assoc.
Qed.


(** The result of the storage probe depends on the settings and the storage
    service, and on nothing else. *)
Lemma storage_probe_result_frame w w' :
  environ w' = environ w → storage w' = storage w →
  (storage_probe w').1 = (storage_probe w).1.
Proof.
  intros He Hc. rewrite !storage_probe_run.
  assert (conn_str_of w' = conn_str_of w) as Hcs
    by (unfold conn_str_of, getenv; by rewrite He).
  assert (ingestion_container_of w' = ingestion_container_of w) as Hic
    by (unfold ingestion_container_of, getenv; by rewrite He).
  destruct (storage_try_run [("ok", VBool false)] w);
    destruct (storage_try_run [("ok", VBool false)] w');
    rewrite ?Hcs, ?Hic, ?Hc in *; simplify_eq/=; try congruence;
    repeat (match goal with
            | H : ?t = _, H' : ?t = _ |- _ => rewrite H in H'; simplify_eq
            end);
    by destruct (isinstance _ Exception).
Qed.

Lemma conn_str_absent w :
  environ w !! "AzureWebJobsStorage" = None →
  environ w !! "STORAGE_CONNECTION_STRING" = None →
  truthy (conn_str_of w) = false.
Proof. intros H1 H2. unfold conn_str_of, py_or, getenv. by rewrite H1, H2. Qed.

Lemma storage_probe_unconfigured w :
  truthy (conn_str_of w) = false →
  storage_probe w =
    (Ok (failed_result missing_conn_str), storage_failed missing_conn_str w).
Proof.
  intros Hf. rewrite storage_probe_run.
  destruct (storage_try_run [("ok", VBool false)] w); try congruence.
  reflexivity.
Qed.

Lemma cosmos_probe_unbound w :
  g_cosmos_ops w = None →
  cosmos_probe w =
    (Ok (failed_result cosmos_ops_undefined), cosmos_failed cosmos_ops_undefined w).
Proof.
  intros Hg. rewrite cosmos_probe_run.
  destruct (cosmos_try_run [("ok", VBool false)] w); try congruence.
  reflexivity.
Qed.

(** ** The extended handler *)

Lemma handler_run req w :
  http_health_check_extended req w =
    match storage_probe (logged INFO "Extended health check endpoint called" w) with
    | (Ok sr, w1) =>
        match cosmos_probe w1 with
        | (Ok cr, w2) => (Ok (health_response sr cr), w2)
        | (Raise e, w2) => (Raise e, w2)
        end
    | (Raise e, w1) => (Raise e, w1)
    end.
Proof.
  unfold http_health_check_extended. mrun. unfold logged.
  destruct (storage_probe _) as [[sr|e] w1]; [|done].
  by destruct (cosmos_probe w1) as [[cr|e] w2].
Qed.

Lemma responds_inv req w resp w' :
  http_health_check_extended req w = (Ok resp, w') →
  ∃ sr cr, responds req w sr cr w' ∧ resp = health_response sr cr.
Proof.
  intros Hrun. pose proof Hrun as H. rewrite handler_run in H.
  fold started in H. unfold responds.
  destruct (storage_probe (started w)) as [[sr|e] w1]; [|done].
  destruct (cosmos_probe w1) as [[cr|e] w2] eqn:Hc; [|done].
  injection H as <- <-. exists sr, cr. split; [|done]. by exists w1.
Qed.

Lemma handler_raise req w e w' :
  http_health_check_extended req w = (Raise e, w') →
  isinstance e Exception = false.
Proof.
  rewrite handler_run.
  destruct (storage_probe _) as [[sr|e1] w1] eqn:Hs.
  - destruct (cosmos_probe w1) as [[cr|e2] w2] eqn:Hc; [done|].
    intros [= <- <-]. by eapply cosmos_probe_raise.
  - intros [= <- <-]. by eapply storage_probe_raise.
Qed.

Lemma handler_responds req w :
  storage_raises_Exceptions w → cosmos_raises_Exceptions w →
  ∃ sr cr w', responds req w sr cr w'.
Proof.
  intros Hs Hc.
  destruct (storage_probe_returns (started w) Hs) as (sr & w1 & H1).
  destruct (storage_probe_effects (started w)) as (evs & _ & _ & _ & Hdb).
  rewrite H1 in Hdb. simpl in Hdb.
  assert (cosmos_raises_Exceptions w1) as Hc1.
  { unfold cosmos_raises_Exceptions. by rewrite Hdb. }
  destruct (cosmos_probe_returns w1 Hc1) as (cr & w2 & H2).
  exists sr, cr, w2, w1. split_and!; try done.
  rewrite handler_run. fold started. by rewrite H1, H2.
Qed.

Lemma status_of_flags sr cr s c :
  dict_lookup "ok" sr = Some (VBool s) →
  dict_lookup "ok" cr = Some (VBool c) →
  status sr cr = (if s && c then "ok" else "error") ∧
  http_status sr cr = (if s && c then 200 else 500)%Z.
Proof.
  intros Hs Hc. unfold status, http_status, overall_ok, py_and, dict_get.
  rewrite Hs, Hc. simpl. by destruct s, c.
Qed.

Lemma unset_counts_as_failure (sr cr : dict) :
  dict_lookup "ok" sr = None ∨ dict_lookup "ok" cr = None →
  status sr cr = "error" ∧ http_status sr cr = 500%Z.
Proof.
  unfold status, http_status, overall_ok, py_and, dict_get.
  intros [->| ->]; simpl.
  - done.
  - destruct (truthy (default VNone (dict_lookup "ok" sr))) eqn:H; simpl;
      by rewrite ?H.
Qed.

Lemma top1_bounded (items : list string) : length (run_query top1 items) ≤ 1.
Proof.
  unfold run_query.
  assert (top_of_query top1 = Some 1) as -> by reflexivity.
  rewrite length_take. lia.
Qed.

(** A request whose two probes are computed to hand over results
    completes with the response built from them. *)
Lemma responds_computed req w sr cr :
  (storage_probe (started w)).1 = Ok sr →
  (cosmos_probe (storage_probe (started w)).2).1 = Ok cr →
  responds req w sr cr (cosmos_probe (storage_probe (started w)).2).2.
Proof.
  intros Hs Hc. exists (storage_probe (started w)).2.
  destruct (storage_probe (started w)) as [r1 w1] eqn:H1. simpl in *. subst r1.
  destruct (cosmos_probe w1) as [r2 w2] eqn:H2. simpl in *. subst r2.
  split_and!; try done.
  rewrite handler_run. fold started. by rewrite H1, H2.
Qed.

(** C1. Whenever the two probes hand over their results, the extended
    handler returns the response built from them; each result carries a
    boolean "ok", and the status in the body is "ok" exactly when both
    booleans are true and "error" otherwise, with no third value. Each of
    the four combinations occurs: for true and true the status is "ok", for
    true and false, false and true, false and false it is "error". *)
Theorem C1_status_ok_iff_both_ok (req : HttpRequest) :
  (∀ (w : World) (sr cr : dict) (w1 w2 : World),
     storage_probe (started w) = (Ok sr, w1) →
     cosmos_probe w1 = (Ok cr, w2) →
     ∃ s c : bool,
       flag sr s ∧ flag cr c ∧
       http_health_check_extended req w = (Ok (health_response sr cr), w2) ∧
       resp_body (health_response sr cr) = Json.dumps (VDict (body sr cr)) ∧
       dict_lookup "status" (body sr cr) = Some (VStr (status sr cr)) ∧
       status sr cr = (if s && c then "ok" else "error") ∧
       (status sr cr = "ok" ↔ s = true ∧ c = true)) ∧
  (∀ s c : bool,
     ∃ (w : World) (sr cr : dict) (w' : World),
       responds req w sr cr w' ∧ flag sr s ∧ flag cr c ∧
       http_health_check_extended req w = (Ok (health_response sr cr), w') ∧
       status sr cr = (if s && c then "ok" else "error")).
Proof.
  split.
  - intros w sr cr w1 w2 Hs Hc.
    destruct (storage_probe_flag _ _ _ Hs) as [s Hfs].
    destruct (cosmos_probe_flag _ _ _ Hc) as [c Hfc].
    destruct (status_of_flags sr cr s c Hfs Hfc) as [Hst _].
    exists s, c. split_and!; try done.
    + rewrite handler_run. fold started. by rewrite Hs, Hc.
    + rewrite Hst. by destruct s, c; split; intros; destruct_and?.
  - assert (∀ w sr cr,
              (storage_probe (started w)).1 = Ok sr →
              (cosmos_probe (storage_probe (started w)).2).1 = Ok cr →
              ∃ w', responds req w sr cr w' ∧
                    http_health_check_extended req w
                      = (Ok (health_response sr cr), w')) as Hrun.
    { intros w sr cr Hs Hc. eexists. split; [by apply responds_computed|].
      pose proof (responds_computed req w sr cr Hs Hc) as (w1 & _ & _ & H).
      exact H. }
    intros [|] [|].
    + destruct (Hrun Samples.healthy
                  (storage_ok_result (VStr "snippet-input") (bsc_url Samples.account))
                  (cosmos_ok_result Samples.healthy)) as (w' & Hr & Hh);
        [vm_compute; reflexivity..|].
      exists Samples.healthy; do 2 eexists; exists w'.
      split_and!; [exact Hr|reflexivity|reflexivity|exact Hh|reflexivity].
    + destruct (Hrun Samples.no_cosmos
                  (storage_ok_result (VStr "snippet-input") (bsc_url Samples.account))
                  (failed_result Samples.unreachable)) as (w' & Hr & Hh);
        [vm_compute; reflexivity..|].
      exists Samples.no_cosmos; do 2 eexists; exists w'.
      split_and!; [exact Hr|reflexivity|reflexivity|exact Hh|reflexivity].
    + destruct (Hrun Samples.no_storage
                  (failed_result Samples.not_found)
                  (cosmos_ok_result Samples.no_storage)) as (w' & Hr & Hh);
        [vm_compute; reflexivity..|].
      exists Samples.no_storage; do 2 eexists; exists w'.
      split_and!; [exact Hr|reflexivity|reflexivity|exact Hh|reflexivity].
    + destruct (Hrun Samples.nothing_up
                  (failed_result Samples.not_found)
                  (failed_result Samples.unreachable)) as (w' & Hr & Hh);
        [vm_compute; reflexivity..|].
      exists Samples.nothing_up; do 2 eexists; exists w'.
      split_and!; [exact Hr|reflexivity|reflexivity|exact Hh|reflexivity].
Qed.

(** C2. The status code is 200 exactly when the status is "ok" and 500
    exactly when it is not, for any two probe results; the response of the
    extended handler carries the status in its body and that code. *)
Theorem C2_http_200_iff_status_ok (req : HttpRequest) (w : World) :
  (∀ sr cr : dict,
      (http_status sr cr = 200%Z ↔ status sr cr = "ok") ∧
      (http_status sr cr = 500%Z ↔ status sr cr ≠ "ok")) ∧
  match http_health_check_extended req w with
  | (Ok resp, w') =>
      ∃ sr cr,
        responds req w sr cr w' ∧
        resp_body resp = Json.dumps (VDict (body sr cr)) ∧
        dict_lookup "status" (body sr cr) = Some (VStr (status sr cr)) ∧
        resp_status_code resp = http_status sr cr
  | (Raise e, _) => isinstance e Exception = false
  end.
Proof.
  split.
  - intros sr cr. unfold http_status, status.
    destruct (truthy (overall_ok sr cr)); split; split; intros; done.
  - destruct (http_health_check_extended req w) as [[resp|e] w'] eqn:Hrun.
    + destruct (responds_inv _ _ _ _ Hrun) as (sr & cr & Hr & ->).
      by exists sr, cr.
    + by eapply handler_raise.
Qed.



(** C5. With neither [AzureWebJobsStorage] nor [STORAGE_CONNECTION_STRING]
    set, the storage probe sends nothing and yields the result with "ok"
    false and the message of the [ValueError] of line 140; the request goes
    on to the Cosmos DB probe and, that probe failing with instances of
    [Exception] only, ends in a response with status "error" and code 500
    for which no storage request was sent. *)
Theorem C5_missing_connection_string (req : HttpRequest) (w : World) :
  environ w !! "AzureWebJobsStorage" = None →
  environ w !! "STORAGE_CONNECTION_STRING" = None →
  cosmos_raises_Exceptions w →
  storage_probe w =
    (Ok (failed_result missing_conn_str), storage_failed missing_conn_str w) ∧
  io (storage_probe w).2 = io w ∧
  ∃ cr w',
    responds req w (failed_result missing_conn_str) cr w' ∧
    filter is_storage_io (io w') = filter is_storage_io (io w) ∧
    status (failed_result missing_conn_str) cr = "error" ∧
    http_status (failed_result missing_conn_str) cr = 500%Z.
Proof.
  intros H1 H2 Hc.
  pose proof (storage_probe_unconfigured w (conn_str_absent w H1 H2)) as Hp.
  split; [done|]. split; [by rewrite Hp|].
  pose proof (storage_probe_unconfigured (started w)
                (conn_str_absent (started w) H1 H2)) as Hs.
  destruct (cosmos_probe_returns (storage_failed missing_conn_str (started w)) Hc)
    as (cr & w' & Hcp).
  exists cr, w'. split_and!; try done.
  - exists (storage_failed missing_conn_str (started w)). split_and!; try done.
    rewrite handler_run. fold started. by rewrite Hs, Hcp.
  - destruct (cosmos_probe_effects (storage_failed missing_conn_str (started w)))
      as (evs & Hevs & Hio & _).
    rewrite Hcp in Hio. simpl in Hio. rewrite Hio, filter_app.
    destruct Hevs as [[-> _]|[[-> _]|[-> _]]]; simpl; by rewrite app_nil_r.
Qed.

Lemma C5_missing_connection_string_witness :
  storage_probe Samples.unconfigured =
    (Ok (failed_result missing_conn_str),
     storage_failed missing_conn_str Samples.unconfigured) ∧
  io (storage_probe Samples.unconfigured).2 = io Samples.unconfigured ∧
  ∃ cr w',
    responds Samples.req Samples.unconfigured (failed_result missing_conn_str) cr w' ∧
    filter is_storage_io (io w') = filter is_storage_io (io Samples.unconfigured) ∧
    status (failed_result missing_conn_str) cr = "error" ∧
    http_status (failed_result missing_conn_str) cr = 500%Z.
Proof.
  apply (C5_missing_connection_string Samples.req Samples.unconfigured).
  - reflexivity.
  - reflexivity.
  - split; simpl; intros e H; discriminate H.
Defined.

(** C6, as the claim states it, fails: a [CancelledError] raised by the
    storage request is no instance of [Exception]; it passes the except
    clause of the probe and leaves the handler, and the Cosmos DB probe is
    never run. *)
Lemma C6_counterexample :
  container_properties_fault (storage Samples.interrupted)
    (mkContainerClient (bsc_url Samples.account) "snippet-input")
    = Some Samples.cancelled ∧
  (http_health_check_extended Samples.req Samples.interrupted).1
    = Raise Samples.cancelled ∧
  filter is_cosmos_io (io (http_health_check_extended Samples.req Samples.interrupted).2)
    = [].
Proof. split_and!; reflexivity. Qed.

(** C6, amended. When the backends raise instances of [Exception] only,
    every exception that ends the try block of a probe is an instance of
    [Exception] and is turned into the probe result with "ok" false and the
    text of the exception, and the handler returns a response. *)
Theorem C6_Exceptions_become_results (req : HttpRequest) (w : World) :
  storage_raises_Exceptions w → cosmos_raises_Exceptions w →
  (∀ e w1, storage_try initial_result w = (Raise e, w1) →
           isinstance e Exception = true ∧
           storage_probe w = (Ok (failed_result e), storage_failed e w1)) ∧
  (∀ e w1, cosmos_try initial_result w = (Raise e, w1) →
           isinstance e Exception = true ∧
           cosmos_probe w = (Ok (failed_result e), cosmos_failed e w1)) ∧
  ∃ sr cr w', responds req w sr cr w'.
Proof.
  intros Hs Hc. split_and!.
  - intros e w1 Hr. rewrite storage_probe_run. unfold initial_result in Hr.
    destruct Hs as [Hp Hf].
    destruct (storage_try_run [("ok", VBool false)] w) as [?|? e' ? ? He|? ? ? e' ? ? ? ? He|];
      simplify_eq.
    + done.
    + by rewrite (Hp _ _ He).
    + by rewrite (Hf _ _ He).
  - intros e w1 Hr. rewrite cosmos_probe_run. unfold initial_result in Hr.
    destruct Hc as [Hg Hq].
    destruct (cosmos_try_run [("ok", VBool false)] w) as [?|? e' ? He|? e' ? ? He|];
      simplify_eq.
    + done.
    + by rewrite (Hg _ He).
    + by rewrite (Hq _ He).
  - by apply handler_responds.
Qed.

Lemma C6_Exceptions_become_results_witness :
  (∀ e w1, storage_try initial_result Samples.no_storage = (Raise e, w1) →
           isinstance e Exception = true ∧
           storage_probe Samples.no_storage
             = (Ok (failed_result e), storage_failed e w1)) ∧
  (∀ e w1, cosmos_try initial_result Samples.no_storage = (Raise e, w1) →
           isinstance e Exception = true ∧
           cosmos_probe Samples.no_storage
             = (Ok (failed_result e), cosmos_failed e w1)) ∧
  ∃ sr cr w', responds Samples.req Samples.no_storage sr cr w'.
Proof.
  apply (C6_Exceptions_become_results Samples.req Samples.no_storage).
  - split; simpl.
    + intros s e H. discriminate H.
    + intros cc e H. injection H as <-. reflexivity.
  - split; simpl; intros e H; discriminate H.
Defined.

(** The other half: an exception that is no instance of [Exception] and
    ends the try block of a probe leaves the probe as it is. *)
Lemma non_Exceptions_pass_the_probes (w : World) (e : exc) (w1 : World) :
  isinstance e Exception = false →
  (storage_try initial_result w = (Raise e, w1) → storage_probe w = (Raise e, w1)) ∧
  (cosmos_try initial_result w = (Raise e, w1) → cosmos_probe w = (Raise e, w1)).
Proof.
  intros He. unfold initial_result. split; intros Hr.
  - rewrite storage_probe_run, Hr. by rewrite He.
  - rewrite cosmos_probe_run, Hr. by rewrite He.
Qed.

(** C8, as the claim states it, fails: on a database whose container does
    not exist yet the Cosmos DB probe sends two requests and leaves the
    container created. *)
Lemma C8_counterexample :
  cosmos (http_health_check_extended Samples.req Samples.first_run).2
    ≠ cosmos Samples.first_run ∧
  db_container_exists (cosmos Samples.first_run) = false ∧
  db_container_exists
    (cosmos (http_health_check_extended Samples.req Samples.first_run).2) = true ∧
  filter is_cosmos_io (io (http_health_check_extended Samples.req Samples.first_run).2)
    = [IoCosmosGetContainer; IoCosmosQuery top1].
Proof. split_and!; [by vm_compute|reflexivity..]. Qed.

(** C8, amended. A request to the extended handler sends at most one storage
    request, the read of the container properties, followed by at most two
    database requests: [get_container], and after it the query. The storage
    service is not changed. The database is changed in one way only: from the
    moment [get_container] succeeds the container exists, created if it was
    missing; its items are never changed. The query carries [TOP 1] and is
    answered with at most one item. *)
Theorem C8_probe_operations (req : HttpRequest) (w : World) :
  ∃ evs_s evs_c,
    io (http_health_check_extended req w).2 = io w ++ evs_s ++ evs_c ∧
    (evs_s = [] ∨ ∃ u c, evs_s = [IoGetContainerProperties u c]) ∧
    (evs_c = [] ∧ cosmos (http_health_check_extended req w).2 = cosmos w
     ∨ evs_c = [IoCosmosGetContainer] ∧
       cosmos (http_health_check_extended req w).2 = cosmos w
     ∨ evs_c = [IoCosmosGetContainer; IoCosmosQuery top1] ∧
       cosmos (http_health_check_extended req w).2 = with_container (cosmos w)) ∧
    storage (http_health_check_extended req w).2 = storage w ∧
    db_items (cosmos (http_health_check_extended req w).2) = db_items (cosmos w) ∧
    top_of_query top1 = Some 1 ∧
    ∀ items, length (run_query top1 items) ≤ 1.
Proof.
  destruct (storage_probe_effects (started w)) as (evs_s & Hs & Hio & Hset & Hdb).
  rewrite handler_run. fold started.
  destruct (storage_probe (started w)) as [[sr|e] w1]; simpl in *.
  - destruct (cosmos_probe_effects w1) as (evs_c & Hc & Hio' & Hset').
    assert ((let (r, w2) := cosmos_probe w1 in
             match r with
             | Ok cr => (Ok (health_response sr cr), w2)
             | Raise e => (Raise e, w2)
             end).2 = (cosmos_probe w1).2) as ->
      by (by destruct (cosmos_probe w1) as [[?|?] ?]).
    exists evs_s, evs_c. rewrite Hio', Hio, Hdb in *.
    destruct Hset as (_ & _ & Hst & _). destruct Hset' as (_ & _ & Hst' & _).
    split_and!; try done.
    + by rewrite app_assoc.
    + by rewrite Hst', Hst.
    + destruct Hc as [[_ ->]|[[_ ->]|[_ ->]]]; by rewrite ?Hdb.
    + apply top1_bounded.
  - exists evs_s, []. destruct Hset as (_ & _ & Hst & _).
    split_and!; try done.
    + by rewrite app_nil_r.
    + by left.
    + by rewrite Hdb.
    + apply top1_bounded.
Qed.

(** C9. Each probe hands over a result whose "ok" is a boolean: true, and
    without an "error" entry, exactly when the try block ran to its end;
    false, with the text of the exception, when the try block raised. What
    leaves the probe otherwise is no instance of [Exception]. In the
    aggregation a result without an "ok" entry counts as a failure. *)
Theorem C9_ok_key_always_present (w : World) :
  match storage_probe w with
  | (Ok sr, w') =>
      flag sr true ∧ dict_lookup "error" sr = None ∧
        storage_try initial_result w = (Ok sr, w')
      ∨ flag sr false ∧
        ∃ e w0, storage_try initial_result w = (Raise e, w0) ∧ sr = failed_result e
  | (Raise e, _) => isinstance e Exception = false
  end ∧
  match cosmos_probe w with
  | (Ok cr, w') =>
      flag cr true ∧ dict_lookup "error" cr = None ∧
        cosmos_try initial_result w = (Ok cr, w')
      ∨ flag cr false ∧
        ∃ e w0, cosmos_try initial_result w = (Raise e, w0) ∧ cr = failed_result e
  | (Raise e, _) => isinstance e Exception = false
  end ∧
  ∀ sr cr : dict,
    dict_lookup "ok" sr = None ∨ dict_lookup "ok" cr = None →
    status sr cr = "error" ∧ http_status sr cr = 500%Z.
Proof.
  split_and!.
  - rewrite storage_probe_run. unfold initial_result.
    destruct (storage_try_run [("ok", VBool false)] w);
      try (destruct (isinstance _ Exception) eqn:Hi); try done;
      first [ by left | right; split; [done|]; by do 2 eexists ].
  - rewrite cosmos_probe_run. unfold initial_result.
    destruct (cosmos_try_run [("ok", VBool false)] w);
      try (destruct (isinstance _ Exception) eqn:Hi); try done;
      first [ by left | right; split; [done|]; by do 2 eexists ].
  - apply unset_counts_as_failure.
Qed.

(** ** The shallow handler *)

(** C7. For every request and in every world the shallow handler returns
    the response with code 200 and the body [{"status": "ok"}], having
    logged one line and sent nothing. Its try block never raises, so the
    result is the same whatever except clauses guard it: the except block
    is never run. *)
Theorem C7_health_is_constant (req : HttpRequest) (w : World) :
  http_health_check_try w
    = (Ok ok_response, logged INFO "Health check endpoint called" w) ∧
  http_health_check req w
    = (Ok ok_response, logged INFO "Health check endpoint called" w) ∧
  io (http_health_check req w).2 = io w ∧
  ∀ clauses, try_except http_health_check_try clauses w = http_health_check req w.
Proof.
  assert (http_health_check_try w
          = (Ok ok_response, logged INFO "Health check endpoint called" w)) as Htry
    by reflexivity.
  assert (∀ clauses, try_except http_health_check_try clauses w
          = (Ok ok_response, logged INFO "Health check endpoint called" w)) as Hany.
  { intros clauses. by apply try_except_ok. }
  assert (http_health_check req w
          = (Ok ok_response, logged INFO "Health check endpoint called" w)) as Hrun
    by apply Hany.
  split_and!; [done|done|by rewrite Hrun|].
  intros clauses. by rewrite Hrun, Hany.
Qed.

(** ** Registration at process start *)

Lemma register_block_run pkg name label w :
  let m := (pkg, name, label) in
  let r := imports w (module_path m) in
  fails_with_Exception r = true →
  register_block pkg name label w =
    (Ok (), lines (alone r m).1 (attached (alone r m).2 w))
  ∧ length (alone r m).1 = 1.
Proof.
  intros m r. subst m r.
  unfold alone, register_block, try_except, import_from, blank_world,
    module_path, getattr_bp, app_register_blueprint, lines, attached.
  mrun.
  destruct (imports w (pkg +:+ "." +:+ name)) as [[n [[fbs|fbs|e]|]]|e]; simpl;
    intros He; try (destruct (isinstance e ImportError)); rewrite ?He; simpl;
    (split; [|done]); destruct w as [? ? ? ? ? [?] ? ?]; simpl;
    by rewrite ?app_nil_r.
Qed.

Lemma M_unit_right_id (c : M unit) w : (c;; mret ()) w = c w.
Proof. mrun. by destruct (c w) as [[[]|e] w']. Qed.

Lemma register_blueprints_unfold w :
  register_blueprints w = register_all blueprint_modules w.
Proof.
  unfold register_blueprints, register_all, blueprint_modules. simpl.
  unfold mbind, M_bind.
  repeat (match goal with
          | |- context [register_block ?a ?b ?c ?w] =>
              destruct (register_block a b c w) as [[[]|?] ?]; try done
          end).
Qed.

Lemma attached_lines_app l1 l2 a1 a2 w :
  lines l2 (attached a2 (lines l1 (attached a1 w)))
  = lines (l1 ++ l2) (attached (a1 ++ a2) w).
Proof.
  destruct w as [? ? ? ? ? [?] ? ?]. unfold lines, attached. simpl.
  by rewrite !app_assoc.
Qed.

Lemma register_all_run ms : ∀ w,
  forallb (λ m, fails_with_Exception (imports w (module_path m))) ms = true →
  register_all ms w =
    (Ok (), lines (concat ((outcome w <$> ms).*1))
              (attached (concat ((outcome w <$> ms).*2)) w)).
Proof.
  induction ms as [|[[pkg name] label] ms IH]; intros w H.
  - simpl. unfold lines, attached. destruct w as [? ? ? ? ? [?] ? ?]. simpl.
    by rewrite !app_nil_r.
  - simpl in H. apply andb_prop in H as [H1 H2].
    destruct (register_block_run pkg name label w H1) as [Hb _].
    simpl. unfold mbind, M_bind. simpl in Hb. rewrite Hb. simpl.
    rewrite IH by exact H2.
    rewrite attached_lines_app. reflexivity.
Qed.

Lemma register_blueprints_run w :
  modules_fail_with_Exceptions w = true →
  register_blueprints w =
    (Ok (), lines (concat ((outcome w <$> blueprint_modules).*1))
              (attached (concat ((outcome w <$> blueprint_modules).*2)) w)).
Proof.
  intros H. rewrite register_blueprints_unfold. by apply register_all_run.
Qed.

Lemma outcome_one_line w m :
  fails_with_Exception (imports w (module_path m)) = true →
  length (outcome w m).1 = 1.
Proof.
  destruct m as [[pkg name] label]. intros H.
  by destruct (register_block_run pkg name label w H) as [_ ?].
Qed.

Lemma outcome_of_blueprint w m n fbs :
  imports w (module_path m) = Ok (mkModule n (Some (Blueprint fbs))) →
  (outcome w m).2 = fbs.
Proof. unfold outcome, alone. intros ->. reflexivity. Qed.

Lemma import_cosmos_ops_failed w e :
  imports w "data.cosmos_ops" = Raise e → isinstance e Exception = true →
  import_cosmos_ops w =
    (Ok (), logged ERROR ("Failed to import cosmos_ops during startup: "
                          +:+ exc_str e) w).
Proof.
  intros Hi He. unfold import_cosmos_ops, try_except, import_from. mrun.
  assert ("data" +:+ "." +:+ "cosmos_ops" = "data.cosmos_ops") as -> by reflexivity.
  rewrite Hi. simpl. by rewrite He.
Qed.

(** An exit raised while a module is imported is no instance of [Exception]:
    it ends the module body, and the later blocks are not run. *)
Example exit_ends_the_module_body :
  ∃ w', register_blueprints (Samples.at_start Samples.exits_early)
        = (Raise (mkExc SystemExit "1"), w') ∧ log w' = [].
Proof. by eexists. Qed.

(** C4. When every module fails, if it fails, with an instance of
    [Exception] (at its import or at the registration of its blueprint),
    lines 43 to 90 run to their end. Each of the five modules leaves one
    log line, in the order of the file, and the function builders of those
    that registered are attached in that order. The line and the builders of
    a module are those its block produces when run alone on the outcome of
    its own import: two worlds that agree on the import of a module agree on
    its outcome, whatever the other modules do. *)
Theorem C4_registration_failures_are_isolated (w : World) :
  modules_fail_with_Exceptions w = true →
  ∃ w',
    register_blueprints w = (Ok (), w') ∧
    log w' = log w ++ concat ((outcome w <$> blueprint_modules).*1) ∧
    app_function_builders (g_app w')
      = app_function_builders (g_app w)
        ++ concat ((outcome w <$> blueprint_modules).*2) ∧
    Forall (λ m, length (outcome w m).1 = 1) blueprint_modules ∧
    (∀ w2 m, imports w2 (module_path m) = imports w (module_path m) →
             outcome w2 m = outcome w m) ∧
    (∀ m n fbs, m ∈ blueprint_modules →
       imports w (module_path m) = Ok (mkModule n (Some (Blueprint fbs))) →
       fbs ⊆ app_function_builders (g_app w')).
Proof.
  intros H.
  set (w' := lines (concat ((outcome w <$> blueprint_modules).*1))
               (attached (concat ((outcome w <$> blueprint_modules).*2)) w)).
  assert (app_function_builders (g_app w')
          = app_function_builders (g_app w)
            ++ concat ((outcome w <$> blueprint_modules).*2)) as Happ
    by reflexivity.
  exists w'. split; [by apply register_blueprints_run|].
  split_and!; try done.
  - apply Forall_forall. intros m Hm. apply outcome_one_line.
    unfold modules_fail_with_Exceptions in H.
    rewrite forallb_forall in H. apply H. by apply list_elem_of_In.
  - intros w2 m Heq. unfold outcome. by rewrite Heq.
  - intros m n fbs Hm Himp x Hx. rewrite Happ.
    apply elem_of_app. right. apply list_elem_of_In, in_concat.
    exists fbs. split; [|by apply list_elem_of_In]. apply list_elem_of_In.
    rewrite <- (outcome_of_blueprint _ _ _ _ Himp).
    apply list_elem_of_fmap. exists (outcome w m). split; [done|].
    apply list_elem_of_fmap. by exists m.
Qed.

Lemma C4_registration_failures_are_isolated_witness :
  ∃ w',
    register_blueprints (Samples.at_start Samples.some_broken) = (Ok (), w') ∧
    log w' = log (Samples.at_start Samples.some_broken)
             ++ concat ((outcome (Samples.at_start Samples.some_broken)
                           <$> blueprint_modules).*1) ∧
    app_function_builders (g_app w')
      = app_function_builders (g_app (Samples.at_start Samples.some_broken))
        ++ concat ((outcome (Samples.at_start Samples.some_broken)
                      <$> blueprint_modules).*2) ∧
    Forall (λ m, length (outcome (Samples.at_start Samples.some_broken) m).1 = 1)
           blueprint_modules ∧
    (∀ w2 m, imports w2 (module_path m)
               = imports (Samples.at_start Samples.some_broken) (module_path m) →
             outcome w2 m = outcome (Samples.at_start Samples.some_broken) m) ∧
    (∀ m n fbs, m ∈ blueprint_modules →
       imports (Samples.at_start Samples.some_broken) (module_path m)
         = Ok (mkModule n (Some (Blueprint fbs))) →
       fbs ⊆ app_function_builders (g_app w')).
Proof.
  apply (C4_registration_failures_are_isolated (Samples.at_start Samples.some_broken)).
  reflexivity.
Defined.

(** The same run, spelled out: two modules fail, three register. *)
Example some_broken_run :
  ∃ w', register_blueprints (Samples.at_start Samples.some_broken) = (Ok (), w') ∧
    log_lvl <$> log w' = [INFO; ERROR; INFO; ERROR; INFO] ∧
    app_function_builders (g_app w')
      = ["fn:functions.bp_snippy"; "fn:functions.bp_embeddings";
         "fn:functions.bp_multi_agent"].
Proof. by eexists. Qed.

(** C10. Let the import of [data.cosmos_ops] fail with an instance of
    [Exception] in a fresh process whose blueprint modules fail, if they do,
    with instances of [Exception]. Then the module body runs to its end,
    the extended handler is installed and [cosmos_ops] stays unbound. From
    then on every request to the extended handler, in any world whose
    storage service fails with instances of [Exception] only, ends in a
    response whose Cosmos DB result has "ok" false and the text of the
    [NameError]; no database request is sent, and the storage result is the
    one the storage probe yields when [cosmos_ops] is bound. *)
Theorem C10_cosmos_ops_import_failure (req : HttpRequest) (w0 : World) (e : exc) :
  g_cosmos_ops w0 = None →
  imports w0 "data.cosmos_ops" = Raise e →
  isinstance e Exception = true →
  modules_fail_with_Exceptions w0 = true →
  ∃ w1,
    module_body w0 = (Ok (), w1) ∧
    g_cosmos_ops w1 = None ∧
    "http_health_check_extended" ∈ app_function_builders (g_app w1) ∧
    ∀ w, g_cosmos_ops w = None → storage_raises_Exceptions w →
      ∃ sr w',
        responds req w sr (failed_result cosmos_ops_undefined) w' ∧
        filter is_cosmos_io (io w') = filter is_cosmos_io (io w) ∧
        cosmos w' = cosmos w ∧
        ∀ m, (storage_probe (set_g_cosmos_ops (Some m) (started w))).1 = Ok sr.
Proof.
  intros Hg Hi He Hm.
  set (wa := set_g_app (mkApp [])
               (logged ERROR ("Failed to import cosmos_ops during startup: "
                              +:+ exc_str e) w0)).
  set (w1 := attached ["http_health_check_extended"]
               (attached ["http_health_check"]
                  (lines (concat ((outcome wa <$> blueprint_modules).*1))
                     (attached (concat ((outcome wa <$> blueprint_modules).*2)) wa)))).
  exists w1. split_and!.
  - unfold module_body. unfold mbind, M_bind.
    rewrite (import_cosmos_ops_failed _ _ Hi He).
    unfold new_app, app_route, modify. fold wa.
    rewrite register_blueprints_run by exact Hm.
    reflexivity.
  - exact Hg.
  - change (app_function_builders (g_app w1))
      with (app_function_builders
              (g_app (attached ["http_health_check"]
                  (lines (concat ((outcome wa <$> blueprint_modules).*1))
                     (attached (concat ((outcome wa <$> blueprint_modules).*2)) wa))))
            ++ ["http_health_check_extended"]).
    apply elem_of_app. right. by apply list_elem_of_singleton.
  - clear. intros w Hg Hs.
    destruct (storage_probe_returns (started w) Hs) as (sr & w1 & H1).
    destruct (storage_probe_effects (started w))
      as (evs & Hevs & Hio & (_ & _ & _ & Hg1 & _) & Hdb).
    rewrite H1 in Hio, Hg1, Hdb. simpl in Hio, Hg1, Hdb.
    assert (g_cosmos_ops w1 = None) as Hg1' by (by rewrite Hg1).
    pose proof (cosmos_probe_unbound w1 Hg1') as H2.
    exists sr, (cosmos_failed cosmos_ops_undefined w1). split_and!.
    + exists w1. split_and!; try done.
      rewrite handler_run. fold started. by rewrite H1, H2.
    + simpl. rewrite Hio, filter_app.
      destruct Hevs as [->|(u & c & ->)]; simpl; by rewrite app_nil_r.
    + simpl. by rewrite Hdb.
    + intros m.
      rewrite (storage_probe_result_frame (started w)); [by rewrite H1|done..].
Qed.

Lemma C10_cosmos_ops_import_failure_witness :
  ∃ w1,
    module_body (Samples.at_start Samples.some_broken) = (Ok (), w1) ∧
    g_cosmos_ops w1 = None ∧
    "http_health_check_extended" ∈ app_function_builders (g_app w1) ∧
    ∀ w, g_cosmos_ops w = None → storage_raises_Exceptions w →
      ∃ sr w',
        responds Samples.req w sr (failed_result cosmos_ops_undefined) w' ∧
        filter is_cosmos_io (io w') = filter is_cosmos_io (io w) ∧
        cosmos w' = cosmos w ∧
        ∀ m, (storage_probe (set_g_cosmos_ops (Some m) (started w))).1 = Ok sr.
Proof.
  apply (C10_cosmos_ops_import_failure Samples.req
           (Samples.at_start Samples.some_broken)
           (mkExc ModuleNotFoundError "No module named 'azure.cosmos'")).
  - reflexivity.
  - reflexivity.
  - reflexivity.
  - reflexivity.
Defined.

(** A request in the process that this start leaves behind. *)
Example request_without_cosmos_ops :
  ∃ sr w',
    responds Samples.req Samples.no_cosmos_ops sr
             (failed_result cosmos_ops_undefined) w' ∧
    flag sr true ∧
    http_status sr (failed_result cosmos_ops_undefined) = 500%Z.
Proof. do 2 eexists. split; [eexists; split_and!; reflexivity|done]. Qed.

(** * Further properties *)

(** ** The settings of the storage probe *)

Lemma py_or_getenv_first_set w k1 k2 :
  py_or (getenv w k1) (getenv w k2) =
    match first_set w [k1; k2] with
    | Some s => VStr s
    | None => getenv w k2
    end
  ∧ truthy (py_or (getenv w k1) (getenv w k2))
    = bool_decide (is_Some (first_set w [k1; k2])).
Proof.
  unfold py_or, getenv. simpl.
  destruct (environ w !! k1) as [a|]; simpl.
  - destruct (bool_decide (a = EmptyString)) eqn:Ha; simpl; rewrite ?Ha; [|done].
    destruct (environ w !! k2) as [b|]; simpl; [|done].
    by destruct (bool_decide (b = EmptyString)) eqn:Hb; simpl; rewrite ?Hb.
  - destruct (environ w !! k2) as [b|]; simpl; [|done].
    by destruct (bool_decide (b = EmptyString)) eqn:Hb; simpl; rewrite ?Hb.
Qed.

Lemma conn_str_of_first_set w :
  match first_set w connection_settings with
  | Some s => conn_str_of w = VStr s ∧ truthy (conn_str_of w) = true
  | None => truthy (conn_str_of w) = false
  end.
Proof.
  unfold conn_str_of, connection_settings.
  destruct (py_or_getenv_first_set w "AzureWebJobsStorage" "STORAGE_CONNECTION_STRING")
    as [H1 H2].
  destruct (first_set w _) as [s|]; rewrite ?H2, ?H1; done.
Qed.

Lemma ingestion_container_of_first_set w :
  ingestion_container_of w = VStr (chosen_container w).
Proof.
  unfold ingestion_container_of, chosen_container, container_settings.
  destruct (py_or_getenv_first_set w "INGESTION_CONTAINER" "STORAGE_CONTAINER_SNIPPETINPUT")
    as [H1 H2].
  unfold py_or at 1.
  destruct (first_set w _) as [c|]; rewrite H2, ?H1; done.
Qed.

(** X1. When neither [AzureWebJobsStorage] nor [STORAGE_CONNECTION_STRING]
    has a value, an empty value counting as none, the storage probe sends
    nothing and yields the result with "ok" false and the message of the
    [ValueError] of line 140, which it also logs. *)
Theorem storage_probe_without_connection_string (w : World) :
  first_set w connection_settings = None →
  storage_probe w =
    (Ok (failed_result missing_conn_str), storage_failed missing_conn_str w) ∧
  io (storage_probe w).2 = io w.
Proof.
  intros H.
  assert (storage_probe w
          = (Ok (failed_result missing_conn_str),
             storage_failed missing_conn_str w)) as Hp.
  { apply storage_probe_unconfigured.
    pose proof (conn_str_of_first_set w) as Hc. by rewrite H in Hc. }
  split; [done|]. by rewrite Hp.
Qed.

Lemma storage_probe_without_connection_string_witness :
  storage_probe Samples.blank_connection_string =
    (Ok (failed_result missing_conn_str),
     storage_failed missing_conn_str Samples.blank_connection_string) ∧
  io (storage_probe Samples.blank_connection_string).2
    = io Samples.blank_connection_string.
Proof.
  apply (storage_probe_without_connection_string Samples.blank_connection_string).
  reflexivity.
Defined.

(** X2. The connection string is the first non-empty value among
    [AzureWebJobsStorage] and [STORAGE_CONNECTION_STRING]; the container is
    the first non-empty value among [INGESTION_CONTAINER] and
    [STORAGE_CONTAINER_SNIPPETINPUT], and "snippet-input" when there is none.
    When the SDK accepts the connection string, the probe sends exactly one
    request, for the properties of that container in the account of that
    connection string, and when the request succeeds the result reports
    "ok" true with that container and that account URL. *)
Theorem storage_probe_target (w : World) (s : string) (bc : BlobServiceClient) :
  first_set w connection_settings = Some s →
  from_connection_string (storage w) s = Ok bc →
  io (storage_probe w).2
    = io w ++ [IoGetContainerProperties (bsc_url bc) (chosen_container w)] ∧
  (container_properties_fault (storage w)
     (mkContainerClient (bsc_url bc) (chosen_container w)) = None →
   storage_probe w =
     (Ok (storage_ok_result (VStr (chosen_container w)) (bsc_url bc)),
      sent [IoGetContainerProperties (bsc_url bc) (chosen_container w)] w)).
Proof.
  intros Hs Hp.
  pose proof (conn_str_of_first_set w) as Hc. rewrite Hs in Hc.
  destruct Hc as [Hc Ht].
  pose proof (ingestion_container_of_first_set w) as Hi.
  rewrite storage_probe_run.
  destruct (storage_try_run [("ok", VBool false)] w)
    as [Hf|s' e Ht' Hs' Hp'|s' bc' c e Ht' Hs' Hp' Hc' Hq|s' bc' c Ht' Hs' Hp' Hc' Hq].
  - congruence.
  - rewrite Hc in Hs'. injection Hs' as <-. congruence.
  - rewrite Hc in Hs'. injection Hs' as <-.
    rewrite Hi in Hc'. injection Hc' as <-.
    rewrite Hp in Hp'. injection Hp' as <-.
    split; [by destruct (isinstance e Exception)|]. congruence.
  - rewrite Hc in Hs'. injection Hs' as <-.
    rewrite Hi in Hc'. injection Hc' as <-.
    rewrite Hp in Hp'. injection Hp' as <-.
    split; [done|]. done.
Qed.

Lemma storage_probe_target_witness :
  io (storage_probe Samples.fallbacks).2
    = io Samples.fallbacks
      ++ [IoGetContainerProperties (bsc_url Samples.account)
            (chosen_container Samples.fallbacks)] ∧
  (container_properties_fault (storage Samples.fallbacks)
     (mkContainerClient (bsc_url Samples.account)
        (chosen_container Samples.fallbacks)) = None →
   storage_probe Samples.fallbacks =
     (Ok (storage_ok_result (VStr (chosen_container Samples.fallbacks))
            (bsc_url Samples.account)),
      sent [IoGetContainerProperties (bsc_url Samples.account)
              (chosen_container Samples.fallbacks)] Samples.fallbacks)).
Proof.
  apply (storage_probe_target Samples.fallbacks "UseDevelopmentStorage=true"
           Samples.account).
  - reflexivity.
  - reflexivity.
Defined.

(** The second choices of the sample are the ones used. *)
Example fallbacks_container : chosen_container Samples.fallbacks = "uploads".
Proof. reflexivity. Qed.

(** X3. When the SDK rejects the connection string with an instance of
    [Exception], the storage probe sends no request and yields the result
    with "ok" false and the text of that exception. *)
Theorem storage_probe_rejected_connection_string (w : World) (s : string) (e : exc) :
  first_set w connection_settings = Some s →
  from_connection_string (storage w) s = Raise e →
  isinstance e Exception = true →
  storage_probe w = (Ok (failed_result e), storage_failed e w) ∧
  io (storage_probe w).2 = io w.
Proof.
  intros Hs Hp He.
  pose proof (conn_str_of_first_set w) as Hc. rewrite Hs in Hc.
  destruct Hc as [Hc Ht].
  rewrite storage_probe_run.
  destruct (storage_try_run [("ok", VBool false)] w)
    as [Hf|s' e' Ht' Hs' Hp'|s' bc' c e' Ht' Hs' Hp' Hc' Hq|s' bc' c Ht' Hs' Hp' Hc' Hq];
    try congruence; rewrite Hc in Hs'; injection Hs' as <-; try congruence.
  rewrite Hp in Hp'. injection Hp' as <-. by rewrite He.
Qed.

Lemma storage_probe_rejected_connection_string_witness :
  storage_probe Samples.rejected =
    (Ok (failed_result Samples.malformed),
     storage_failed Samples.malformed Samples.rejected) ∧
  io (storage_probe Samples.rejected).2 = io Samples.rejected.
Proof.
  apply (storage_probe_rejected_connection_string Samples.rejected
           "UseDevelopmentStorage=true" Samples.malformed).
  - reflexivity.
  - reflexivity.
  - reflexivity.
Defined.

(** ** What the extended handler logs, sends and depends on *)

Lemma storage_probe_log w sr w' :
  storage_probe w = (Ok sr, w') →
  log w' = log w ++ error_line "Storage health check failed: " sr.
Proof.
  rewrite storage_probe_run.
  destruct (storage_try_run [("ok", VBool false)] w);
    try (destruct (isinstance _ Exception)); intros [= <- <-];
    simpl; by rewrite ?app_nil_r.
Qed.

Lemma cosmos_probe_log w cr w' :
  cosmos_probe w = (Ok cr, w') →
  log w' = log w ++ error_line "Cosmos health check failed: " cr.
Proof.
  rewrite cosmos_probe_run.
  destruct (cosmos_try_run [("ok", VBool false)] w);
    try (destruct (isinstance _ Exception)); intros [= <- <-];
    simpl; by rewrite ?app_nil_r.
Qed.

(** X4. A request that completes adds to the log the line of line 126 and
    then, for each probe result that has an "error" entry, one error line
    that carries the same text as the entry, the one of the storage probe
    first; a probe that succeeds logs nothing. *)
Theorem extended_handler_log (req : HttpRequest) (w : World) (sr cr : dict) (w' : World) :
  responds req w sr cr w' →
  log w' = log w
           ++ [mkLog INFO "Extended health check endpoint called"]
           ++ error_line "Storage health check failed: " sr
           ++ error_line "Cosmos health check failed: " cr.
Proof.
  intros (w1 & Hs & Hc & _).
  rewrite (cosmos_probe_log _ _ _ Hc), (storage_probe_log _ _ _ Hs).
  simpl. by rewrite <- !app_assoc.
Qed.

Lemma extended_handler_log_witness :
  log (http_health_check_extended Samples.req Samples.nothing_up).2
  = log Samples.nothing_up
    ++ [mkLog INFO "Extended health check endpoint called"]
    ++ error_line "Storage health check failed: "
         (failed_result Samples.not_found)
    ++ error_line "Cosmos health check failed: "
         (failed_result Samples.unreachable).
Proof.
  apply (extended_handler_log Samples.req Samples.nothing_up
           (failed_result Samples.not_found)
           (failed_result Samples.unreachable)).
  vm_compute. eexists. split_and!; reflexivity.
Defined.

Lemma cosmos_probe_db w :
  cosmos (cosmos_probe w).2 =
    match g_cosmos_ops w, db_get_container_fault (cosmos w) with
    | Some _, None => with_container (cosmos w)
    | _, _ => cosmos w
    end.
Proof.
  rewrite cosmos_probe_run.
  destruct (cosmos_try_run [("ok", VBool false)] w) as [H1|m e H1 H2|m e H1 H2 H3|m H1 H2 H3];
    rewrite H1, ?H2; try (destruct (isinstance _ Exception)); done.
Qed.

(** The result of the Cosmos DB probe depends on the database through its
    two faults only. *)
Lemma cosmos_probe_result_faults w w' :
  environ w' = environ w → g_cosmos_ops w' = g_cosmos_ops w →
  db_get_container_fault (cosmos w') = db_get_container_fault (cosmos w) →
  db_query_fault (cosmos w') = db_query_fault (cosmos w) →
  (cosmos_probe w').1 = (cosmos_probe w).1.
Proof.
  intros He Hg Hf Hq. rewrite !cosmos_probe_run.
  destruct (cosmos_try_run [("ok", VBool false)] w) as [H1|m e H1 H2|m e H1 H2 H3|m H1 H2 H3];
    destruct (cosmos_try_run [("ok", VBool false)] w') as [G1|m' e' G1 G2|m' e' G1 G2 G3|m' G1 G2 G3];
    rewrite ?Hg, ?Hf, ?Hq in *; simplify_eq; try done;
    try (by destruct (isinstance _ Exception)).
  unfold cosmos_ok_result, getenv. by rewrite He.
Qed.

Lemma probes_frame w1 w2 :
  environ w1 = environ w2 → storage w1 = storage w2 →
  g_cosmos_ops w1 = g_cosmos_ops w2 →
  db_get_container_fault (cosmos w1) = db_get_container_fault (cosmos w2) →
  db_query_fault (cosmos w1) = db_query_fault (cosmos w2) →
  (storage_probe w1).1 = (storage_probe w2).1 ∧
  (cosmos_probe (storage_probe w1).2).1 = (cosmos_probe (storage_probe w2).2).1.
Proof.
  intros He Hst Hg Hf Hq.
  split; [by apply storage_probe_result_frame|].
  destruct (storage_probe_effects w1) as (_ & _ & _ & (He1 & _ & _ & Hg1 & _) & Hdb1).
  destruct (storage_probe_effects w2) as (_ & _ & _ & (He2 & _ & _ & Hg2 & _) & Hdb2).
  apply cosmos_probe_result_faults; rewrite ?Hdb1, ?Hdb2; congruence.
Qed.

Lemma handler_result req w :
  (http_health_check_extended req w).1 =
    match (storage_probe (started w)).1 with
    | Ok sr =>
        match (cosmos_probe (storage_probe (started w)).2).1 with
        | Ok cr => Ok (health_response sr cr)
        | Raise e => Raise e
        end
    | Raise e => Raise e
    end.
Proof.
  rewrite handler_run. fold started.
  destruct (storage_probe (started w)) as [[sr|e] w1]; [|done]. simpl.
  by destruct (cosmos_probe w1) as [[cr|e] w2].
Qed.

(** X5. What the extended handler returns, a response or an exception,
    depends on the settings, the storage service, the binding of
    [cosmos_ops] and the two faults of the database, and on nothing else:
    not on the request, the log, the requests sent before, the app, nor on
    whether the container exists or what it holds. *)
Theorem response_depends_on_configuration
    (req1 req2 : HttpRequest) (w1 w2 : World) :
  environ w1 = environ w2 → storage w1 = storage w2 →
  g_cosmos_ops w1 = g_cosmos_ops w2 →
  db_get_container_fault (cosmos w1) = db_get_container_fault (cosmos w2) →
  db_query_fault (cosmos w1) = db_query_fault (cosmos w2) →
  (http_health_check_extended req1 w1).1 = (http_health_check_extended req2 w2).1.
Proof.
  intros He Hst Hg Hf Hq. rewrite !handler_result.
  destruct (probes_frame (started w1) (started w2) He Hst Hg Hf Hq) as [Hs Hc].
  by rewrite Hs, Hc.
Qed.

Lemma response_depends_on_configuration_witness :
  (http_health_check_extended Samples.req Samples.healthy).1
  = (http_health_check_extended (mkRequest "GET" "/api/health_extended?x=1")
       Samples.first_run).1.
Proof.
  apply (response_depends_on_configuration Samples.req
           (mkRequest "GET" "/api/health_extended?x=1")
           Samples.healthy Samples.first_run); reflexivity.
Defined.

Lemma same_setting_trans w1 w2 w3 :
  same_setting w1 w2 → same_setting w2 w3 → same_setting w1 w3.
Proof.
  intros (? & ? & ? & ? & ?) (? & ? & ? & ? & ?).
  unfold same_setting. split_and!; congruence.
Qed.

Lemma handler_setting req w : same_setting w (http_health_check_extended req w).2.
Proof.
  rewrite handler_run. fold started.
  apply (same_setting_trans w (started w)); [by repeat split|].
  destruct (storage_probe_effects (started w)) as (_ & _ & _ & Hs & _).
  destruct (storage_probe (started w)) as [[sr|e] w1]; [|done].
  destruct (cosmos_probe_effects w1) as (_ & _ & _ & Hc).
  apply (same_setting_trans _ w1); [done|].
  by destruct (cosmos_probe w1) as [[cr|e] w2].
Qed.

Lemma handler_db req w resp w' :
  http_health_check_extended req w = (Ok resp, w') →
  cosmos w' =
    match g_cosmos_ops w, db_get_container_fault (cosmos w) with
    | Some _, None => with_container (cosmos w)
    | _, _ => cosmos w
    end.
Proof.
  rewrite handler_run. fold started.
  destruct (storage_probe_effects (started w)) as (_ & _ & _ & (_ & _ & _ & Hg & _) & Hdb).
  destruct (storage_probe (started w)) as [[sr|e] w1]; [|done]. simpl in *.
  pose proof (cosmos_probe_db w1) as Hc.
  destruct (cosmos_probe w1) as [[cr|e] w2]; [|done]. simpl in *.
  intros [= <- <-]. by rewrite Hc, Hg, Hdb.
Qed.

(** X6. After a request that returned a response, a further request, in the
    world the first one left, returns the same response and leaves the
    database as it found it: the container is created at most once. *)
Theorem extended_handler_repeatable
    (req req' : HttpRequest) (w : World) (resp : HttpResponse) (w' : World) :
  http_health_check_extended req w = (Ok resp, w') →
  ∃ w'', http_health_check_extended req' w' = (Ok resp, w'') ∧
         cosmos w'' = cosmos w'.
Proof.
  intros Hrun.
  pose proof (handler_setting req w) as (He & _ & Hst & Hg & _).
  pose proof (handler_db _ _ _ _ Hrun) as Hdb.
  rewrite Hrun in He, Hst, Hg. simpl in *.
  assert (db_get_container_fault (cosmos w') = db_get_container_fault (cosmos w)
          ∧ db_query_fault (cosmos w') = db_query_fault (cosmos w)) as [Hf Hq].
  { rewrite Hdb.
    by destruct (g_cosmos_ops w), (db_get_container_fault (cosmos w)) eqn:Hfw. }
  assert ((http_health_check_extended req' w').1
          = (http_health_check_extended req w).1) as Hres.
  { rewrite !handler_result.
    destruct (probes_frame (started w') (started w) He Hst Hg Hf Hq) as [Hs Hc].
    by rewrite Hs, Hc. }
  rewrite Hrun in Hres. simpl in Hres.
  destruct (http_health_check_extended req' w') as [r w''] eqn:Hrun'.
  simpl in Hres. subst r. exists w''. split; [done|].
  rewrite (handler_db _ _ _ _ Hrun'), Hg, Hf, Hdb.
  by destruct (g_cosmos_ops w), (db_get_container_fault (cosmos w)) eqn:Hfw.
Qed.

Lemma extended_handler_repeatable_witness :
  ∃ w'',
    http_health_check_extended Samples.req
      (http_health_check_extended Samples.req Samples.first_run).2
    = (Ok (health_response
             (storage_ok_result (VStr "snippet-input") (bsc_url Samples.account))
             (cosmos_ok_result Samples.first_run)), w'') ∧
    cosmos w'' = cosmos (http_health_check_extended Samples.req Samples.first_run).2.
Proof.
  apply (extended_handler_repeatable Samples.req Samples.req Samples.first_run).
  vm_compute. reflexivity.
Defined.

(** X7. A result of the storage probe has the entries "ok", "container" and
    "account_url", in this order and with "ok" true, or the entries "ok" and
    "error" with "ok" false. A result of the Cosmos DB probe has the entries
    "ok", "database" and "container" with "ok" true, the two names as the
    settings [COSMOS_DATABASE_NAME] and [COSMOS_CONTAINER_NAME] give them
    ([None] when unset), or the entries "ok" and "error" with "ok" false. *)
Theorem probe_result_shapes (w : World) :
  match storage_probe w with
  | (Ok sr, _) =>
      (∃ c u, sr = storage_ok_result (VStr c) u) ∧
        dict_keys sr = ["ok"; "container"; "account_url"] ∧ flag sr true
      ∨ (∃ msg, sr = [("ok", VBool false); ("error", VStr msg)]) ∧
        dict_keys sr = ["ok"; "error"] ∧ flag sr false
  | (Raise _, _) => True
  end ∧
  match cosmos_probe w with
  | (Ok cr, _) =>
      cr = cosmos_ok_result w ∧
        dict_keys cr = ["ok"; "database"; "container"] ∧ flag cr true
      ∨ (∃ msg, cr = [("ok", VBool false); ("error", VStr msg)]) ∧
        dict_keys cr = ["ok"; "error"] ∧ flag cr false
  | (Raise _, _) => True
  end.
Proof.
  split.
  - rewrite storage_probe_run.
    destruct (storage_try_run [("ok", VBool false)] w);
      try (destruct (isinstance _ Exception)); try done;
      first [ left; split; [by do 2 eexists|done]
            | right; split; [by eexists|done] ].
  - rewrite cosmos_probe_run.
    destruct (cosmos_try_run [("ok", VBool false)] w);
      try (destruct (isinstance _ Exception)); try done;
      first [ by left | right; split; [by eexists|done] ].
Qed.

Lemma cosmos_probe_io_bound w m :
  g_cosmos_ops w = Some m →
  ∃ post, io (cosmos_probe w).2 = io w ++ IoCosmosGetContainer :: post ∧
          (post = [] ∨ post = [IoCosmosQuery top1]).
Proof.
  intros Hg. rewrite cosmos_probe_run.
  destruct (cosmos_try_run [("ok", VBool false)] w) as [H1|m' e H1 H2|m' e H1 H2 H3|m' H1 H2 H3];
    [congruence|..]; try (destruct (isinstance _ Exception)); simpl.
  1,2: exists []; split; [done|by left].
  all: exists [IoCosmosQuery top1]; split; [by rewrite <- app_assoc|by right].
Qed.

(** X8. With [cosmos_ops] bound and a storage service that raises instances
    of [Exception] only, every request asks the database for the container,
    after the storage request if there was one and whatever that request
    came to; the query follows when the container was obtained. *)
Theorem cosmos_probe_is_attempted (req : HttpRequest) (w : World) (m : PyModule) :
  g_cosmos_ops w = Some m → storage_raises_Exceptions w →
  ∃ pre post,
    io (http_health_check_extended req w).2
      = io w ++ pre ++ IoCosmosGetContainer :: post ∧
    (pre = [] ∨ ∃ u c, pre = [IoGetContainerProperties u c]) ∧
    (post = [] ∨ post = [IoCosmosQuery top1]).
Proof.
  intros Hg Hs. rewrite handler_run. fold started.
  destruct (storage_probe_returns (started w) Hs) as (sr & w1 & H1).
  destruct (storage_probe_effects (started w))
    as (pre & Hpre & Hio & (_ & _ & _ & Hg1 & _) & _).
  rewrite H1 in *. simpl in Hio, Hg1.
  assert (g_cosmos_ops w1 = Some m) as Hg1' by (by rewrite Hg1).
  destruct (cosmos_probe_io_bound w1 m Hg1') as (post & Hio' & Hpost).
  exists pre, post. split_and!; try done.
  destruct (cosmos_probe w1) as [[cr|e] w2]; simpl in *;
    by rewrite Hio', Hio, <- app_assoc.
Qed.

Lemma cosmos_probe_is_attempted_witness :
  ∃ pre post,
    io (http_health_check_extended Samples.req Samples.no_storage).2
      = io Samples.no_storage ++ pre ++ IoCosmosGetContainer :: post ∧
    (pre = [] ∨ ∃ u c, pre = [IoGetContainerProperties u c]) ∧
    (post = [] ∨ post = [IoCosmosQuery top1]).
Proof.
  apply (cosmos_probe_is_attempted Samples.req Samples.no_storage
           Samples.the_cosmos_ops).
  - reflexivity.
  - split; simpl.
    + intros s e H. discriminate H.
    + intros cc e H. injection H as <-. reflexivity.
Defined.

(** ** The bodies of the responses *)

Lemma all_printable_app s t :
  all_printable (s +:+ t) = all_printable s && all_printable t.
Proof. induction s as [|c s IH]; simpl; [done|]. by rewrite IH, andb_assoc. Qed.

Lemma hex_digit_printable n : printable (Json.hex_digit n) = true.
Proof. do 16 (destruct n as [|n]; [done|]). done. Qed.

Lemma escape_char_printable c : all_printable (Json.escape_char c) = true.
Proof.
  unfold Json.escape_char.
  repeat (case_bool_decide; [done|]).
  case_bool_decide as Hp.
  - simpl. unfold printable. by rewrite bool_decide_eq_true_2.
  - rewrite !all_printable_app. simpl. by rewrite !hex_digit_printable.
Qed.

Lemma escape_printable s : all_printable (Json.escape s) = true.
Proof.
  induction s as [|c s IH]; simpl; [done|].
  by rewrite all_printable_app, escape_char_printable, IH.
Qed.

Lemma quote_printable s : all_printable (Json.quote s) = true.
Proof.
  unfold Json.quote. by rewrite !all_printable_app, escape_printable.
Qed.

Lemma dumps_printable : ∀ v, all_printable (Json.dumps v) = true.
Proof.
  fix IH 1. intros [|[|]|s|d].
  - reflexivity.
  - reflexivity.
  - reflexivity.
  - apply quote_printable.
  - simpl. rewrite !all_printable_app. simpl. rewrite andb_true_r.
    induction d as [|[k v] d IHd]; [reflexivity|].
    destruct d as [|kv d].
    + rewrite !all_printable_app, quote_printable, (IH v). reflexivity.
    + rewrite !all_printable_app, quote_printable, (IH v). simpl.
      exact IHd.
Qed.

(** X9. The body of every response, of the shallow handler, of its except
    block and of the extended handler, whatever the texts of the errors it
    reports, consists of characters between the space and the tilde:
    [json.dumps] escapes every other character. *)
Theorem response_bodies_are_printable (req : HttpRequest) (w : World) :
  match http_health_check req w with
  | (Ok resp, _) => all_printable (resp_body resp) = true
  | (Raise _, _) => True
  end ∧
  (∀ e, match http_health_check_except e w with
        | (Ok resp, _) => all_printable (resp_body resp) = true
        | (Raise _, _) => True
        end) ∧
  match http_health_check_extended req w with
  | (Ok resp, _) => all_printable (resp_body resp) = true
  | (Raise _, _) => True
  end.
Proof.
  split_and!.
  - reflexivity.
  - intros e.
    exact (dumps_printable (VDict [("status", VStr "error");
                                   ("message", VStr (exc_str e))])).
  - destruct (http_health_check_extended req w) as [[resp|e] w'] eqn:Hrun; [|done].
    destruct (responds_inv _ _ _ _ Hrun) as (sr & cr & _ & ->).
    apply dumps_printable.
Qed.

(** A quote, a line feed and a byte above 127 in an error text. *)
Example error_text_is_escaped :
  Json.dumps (VStr (String "034"%char (String "010"%char (String "233"%char "x"))))
  = Json.dquote +:+ Json.backslash +:+ Json.dquote +:+ Json.backslash +:+ "n"
    +:+ Json.backslash +:+ "u00e9x" +:+ Json.dquote.
Proof. reflexivity. Qed.

(** ** The module body *)

Lemma length_concat_ones {A} (ls : list (list A)) :
  Forall (λ l, length l = 1) ls → length (concat ls) = length ls.
Proof.
  induction 1 as [|l ls Hl _ IH]; [done|].
  simpl. rewrite length_app, Hl, IH. done.
Qed.

Lemma import_cosmos_ops_bound w m :
  imports w "data.cosmos_ops" = Ok m →
  import_cosmos_ops w = (Ok (), set_g_cosmos_ops (Some m) w).
Proof.
  intros Hi. unfold import_cosmos_ops, try_except, import_from. mrun.
  assert ("data" +:+ "." +:+ "cosmos_ops" = "data.cosmos_ops") as -> by reflexivity.
  by rewrite Hi.
Qed.

(** X10. When the import of [data.cosmos_ops] and the blueprint modules
    fail, if they fail, with instances of [Exception], the module body runs
    to its end. [cosmos_ops] is bound exactly when its import succeeded. The
    app, created anew, holds the function builders of the blueprints that
    registered, in the order of the file, followed by the two health
    handlers. The log grows by one line for each of the five blueprint
    modules, and by one more when the import of [data.cosmos_ops] failed. *)
Theorem module_body_completes (w0 : World) :
  (∀ e, imports w0 "data.cosmos_ops" = Raise e → isinstance e Exception = true) →
  modules_fail_with_Exceptions w0 = true →
  ∃ w1,
    module_body w0 = (Ok (), w1) ∧
    g_cosmos_ops w1 =
      match imports w0 "data.cosmos_ops" with
      | Ok m => Some m
      | Raise _ => g_cosmos_ops w0
      end ∧
    app_function_builders (g_app w1)
      = concat ((outcome w0 <$> blueprint_modules).*2)
        ++ ["http_health_check"; "http_health_check_extended"] ∧
    length (log w1)
      = length (log w0) + 5
        + (match imports w0 "data.cosmos_ops" with Ok _ => 0 | Raise _ => 1 end).
Proof.
  intros Hc Hm.
  assert (∀ wa : World, imports wa = imports w0 →
            ∃ w1, (new_app;; register_blueprints;;
                   app_route "http_health_check";;
                   app_route "http_health_check_extended") wa = (Ok (), w1) ∧
                  g_cosmos_ops w1 = g_cosmos_ops wa ∧
                  app_function_builders (g_app w1)
                    = concat ((outcome w0 <$> blueprint_modules).*2)
                      ++ ["http_health_check"; "http_health_check_extended"] ∧
                  length (log w1) = length (log wa) + 5) as Hrest.
  { intros wa Hi.
    set (wb := set_g_app (mkApp []) wa).
    assert (modules_fail_with_Exceptions wb = true) as Hmb.
    { unfold modules_fail_with_Exceptions.
      change (imports wb) with (imports wa). by rewrite Hi. }
    assert (outcome wb = outcome w0) as Ho.
    { unfold outcome. change (imports wb) with (imports wa). by rewrite Hi. }
    set (w1 := attached ["http_health_check_extended"]
                 (attached ["http_health_check"]
                    (lines (concat ((outcome wb <$> blueprint_modules).*1))
                       (attached (concat ((outcome wb <$> blueprint_modules).*2)) wb)))).
    exists w1. split_and!.
    - unfold mbind, M_bind, new_app, app_route, modify. fold wb.
      by rewrite (register_blueprints_run wb Hmb).
    - done.
    - change (app_function_builders (g_app w1))
        with ((([] ++ concat ((outcome wb <$> blueprint_modules).*2))
               ++ ["http_health_check"]) ++ ["http_health_check_extended"]).
      rewrite Ho. simpl. by rewrite <- app_assoc.
    - change (log w1)
        with (log wa ++ concat ((outcome wb <$> blueprint_modules).*1)).
      rewrite length_app. f_equal.
      assert (Forall (λ m, length (outcome wb m).1 = 1) blueprint_modules) as Hone.
      { apply Forall_forall. intros m Hin. apply outcome_one_line.
        unfold modules_fail_with_Exceptions in Hmb.
        rewrite forallb_forall in Hmb. apply Hmb. by apply list_elem_of_In. }
      rewrite length_concat_ones.
      + by rewrite !length_fmap.
      + by rewrite !Forall_fmap. }
  unfold module_body. unfold mbind at 1, M_bind at 1.
  destruct (imports w0 "data.cosmos_ops") as [m|e] eqn:Hi.
  - rewrite (import_cosmos_ops_bound _ _ Hi).
    destruct (Hrest (set_g_cosmos_ops (Some m) w0) eq_refl) as (w1 & H1 & H2 & H3 & H4).
    exists w1. split_and!; try done. by rewrite H4, Nat.add_0_r.
  - rewrite (import_cosmos_ops_failed _ _ Hi (Hc _ eq_refl)).
    destruct (Hrest (logged ERROR ("Failed to import cosmos_ops during startup: "
                                    +:+ exc_str e) w0) eq_refl)
      as (w1 & H1 & H2 & H3 & H4).
    exists w1. split_and!; try done.
    rewrite H4. simpl. rewrite length_app. simpl. lia.
Qed.

Lemma module_body_completes_witness :
  ∃ w1,
    module_body (Samples.at_start Samples.some_broken) = (Ok (), w1) ∧
    g_cosmos_ops w1 =
      match imports (Samples.at_start Samples.some_broken) "data.cosmos_ops" with
      | Ok m => Some m
      | Raise _ => g_cosmos_ops (Samples.at_start Samples.some_broken)
      end ∧
    app_function_builders (g_app w1)
      = concat ((outcome (Samples.at_start Samples.some_broken)
                   <$> blueprint_modules).*2)
        ++ ["http_health_check"; "http_health_check_extended"] ∧
    length (log w1)
      = length (log (Samples.at_start Samples.some_broken)) + 5
        + (match imports (Samples.at_start Samples.some_broken) "data.cosmos_ops"
           with Ok _ => 0 | Raise _ => 1 end).
Proof.
  apply (module_body_completes (Samples.at_start Samples.some_broken)).
  - intros e H. injection H as <-. reflexivity.
  - reflexivity.
Defined.

Lemma not_Exception_not_ImportError e :
  isinstance e Exception = false → isinstance e ImportError = false.
Proof.
  intros H. destruct (isinstance e ImportError) eqn:Hi; [|done].
  apply ImportError_is_Exception in Hi. congruence.
Qed.

Lemma register_block_passes pkg name label w e :
  imports w (pkg +:+ "." +:+ name) = Raise e →
  isinstance e Exception = false →
  register_block pkg name label w = (Raise e, w).
Proof.
  intros Hi He. unfold register_block, try_except, import_from. mrun.
  rewrite Hi. simpl. by rewrite (not_Exception_not_ImportError e He), He.
Qed.

Lemma register_all_aborts pre m post e : ∀ w,
  forallb (λ m, fails_with_Exception (imports w (module_path m))) pre = true →
  imports w (module_path m) = Raise e →
  isinstance e Exception = false →
  register_all (pre ++ m :: post) w =
    (Raise e, lines (concat ((outcome w <$> pre).*1))
                (attached (concat ((outcome w <$> pre).*2)) w)).
Proof.
  induction pre as [|[[pkg name] label] pre IH]; intros w Hpre Hi He.
  - destruct m as [[pkg name] label]. simpl. unfold mbind, M_bind.
    rewrite (register_block_passes pkg name label w e Hi He).
    unfold lines, attached. destruct w as [? ? ? ? ? [?] ? ?]. simpl.
    by rewrite !app_nil_r.
  - simpl in Hpre. apply andb_prop in Hpre as [H1 H2].
    destruct (register_block_run pkg name label w H1) as [Hb _].
    simpl. unfold mbind, M_bind. simpl in Hb. rewrite Hb. simpl.
    rewrite IH; [|exact H2|exact Hi|exact He].
    rewrite attached_lines_app. reflexivity.
Qed.

(** X11. When the import of a blueprint module raises an exception that is
    no instance of [Exception], and the modules before it in the file fail,
    if they fail, with instances of [Exception], lines 43 to 90 end with that
    exception: the modules before it have left their log lines and their
    function builders, the module itself and those after it leave
    nothing. *)
Theorem exit_at_import_ends_registration
    (w : World) (pre post : list (string * string * string))
    (m : string * string * string) (e : exc) :
  blueprint_modules = pre ++ m :: post →
  forallb (λ m, fails_with_Exception (imports w (module_path m))) pre = true →
  imports w (module_path m) = Raise e →
  isinstance e Exception = false →
  ∃ w',
    register_blueprints w = (Raise e, w') ∧
    log w' = log w ++ concat ((outcome w <$> pre).*1) ∧
    length (log w') = length (log w) + length pre ∧
    app_function_builders (g_app w')
      = app_function_builders (g_app w) ++ concat ((outcome w <$> pre).*2).
Proof.
  intros Hms Hpre Hi He.
  set (w' := lines (concat ((outcome w <$> pre).*1))
               (attached (concat ((outcome w <$> pre).*2)) w)).
  exists w'. split_and!; try done.
  - rewrite register_blueprints_unfold, Hms. by apply register_all_aborts.
  - change (log w') with (log w ++ concat ((outcome w <$> pre).*1)).
    rewrite length_app. f_equal. rewrite length_concat_ones.
    + by rewrite !length_fmap.
    + rewrite !Forall_fmap. apply Forall_forall. intros m' Hin.
      apply outcome_one_line. rewrite forallb_forall in Hpre.
      apply Hpre. by apply list_elem_of_In.
Qed.

Lemma exit_at_import_ends_registration_witness :
  ∃ w',
    register_blueprints (Samples.at_start Samples.interrupted_at_third)
      = (Raise (mkExc KeyboardInterrupt EmptyString), w') ∧
    log w' = log (Samples.at_start Samples.interrupted_at_third)
             ++ concat ((outcome (Samples.at_start Samples.interrupted_at_third)
                           <$> [("functions", "bp_snippy", "Snippy");
                                ("routes", "query", "Query")]).*1) ∧
    length (log w')
      = length (log (Samples.at_start Samples.interrupted_at_third))
        + length [("functions", "bp_snippy", "Snippy"); ("routes", "query", "Query")] ∧
    app_function_builders (g_app w')
      = app_function_builders (g_app (Samples.at_start Samples.interrupted_at_third))
        ++ concat ((outcome (Samples.at_start Samples.interrupted_at_third)
                      <$> [("functions", "bp_snippy", "Snippy");
                           ("routes", "query", "Query")]).*2).
Proof.
  apply (exit_at_import_ends_registration
           (Samples.at_start Samples.interrupted_at_third)
           [("functions", "bp_snippy", "Snippy"); ("routes", "query", "Query")]
           [("functions", "bp_ingestion", "Ingestion");
            ("functions", "bp_multi_agent", "Multi-agent")]
           ("functions", "bp_embeddings", "Embeddings")
           (mkExc KeyboardInterrupt EmptyString)).
  - reflexivity.
  - reflexivity.
  - reflexivity.
  - reflexivity.
Defined.

(** X12. When the import of a module raises an instance of [Exception], its
    block ends normally and changes nothing but the log, to which it adds
    one error line: the import-error line when the exception is an instance
    of [ImportError] (a [ModuleNotFoundError] is one), the
    registration-failed line otherwise, each with the text of the
    exception. *)
Theorem register_block_failure (pkg name label : string) (w : World) (e : exc) :
  imports w (pkg +:+ "." +:+ name) = Raise e →
  isinstance e Exception = true →
  register_block pkg name label w =
    (Ok (),
     logged ERROR
       (if isinstance e ImportError
        then "❌ Import error for " +:+ label +:+ " blueprint: " +:+ exc_str e
        else "❌ " +:+ label +:+ " blueprint registration failed: " +:+ exc_str e)
       w).
Proof.
  intros Hi He. unfold register_block, try_except, import_from. mrun.
  rewrite Hi. simpl. destruct (isinstance e ImportError); [done|].
  by rewrite He.
Qed.

Lemma register_block_failure_witness :
  register_block "routes" "query" "Query" (Samples.at_start Samples.some_broken) =
    (Ok (),
     logged ERROR
       (if isinstance (mkExc ModuleNotFoundError "No module named 'routes'") ImportError
        then "❌ Import error for " +:+ "Query" +:+ " blueprint: "
             +:+ exc_str (mkExc ModuleNotFoundError "No module named 'routes'")
        else "❌ " +:+ "Query" +:+ " blueprint registration failed: "
             +:+ exc_str (mkExc ModuleNotFoundError "No module named 'routes'"))
       (Samples.at_start Samples.some_broken)).
Proof.
  apply (register_block_failure "routes" "query" "Query"
           (Samples.at_start Samples.some_broken)
           (mkExc ModuleNotFoundError "No module named 'routes'")).
  - reflexivity.
  - reflexivity.
Defined.
